(** * Housing-market ETL: key normalisation, reshaping and derived metrics

    A shallow embedding of the pandas pipeline in
    [scripts/02_data_cleaning.py], [scripts/03_housing_and_population_cleaning.py]
    and [scripts/04_fix_fips_codes.py].

    Conventions of the embedding:
    - a DataFrame is a list of row records, in row order;
    - a float64 column holds binary64 numbers ([PrimFloat.float]); as in pandas
      the missing value of such a column is NaN, so "null" is [is_nan];
    - an object (string) column holds [option string], [None] being the
      missing value;
    - a Python [dict] is the list of its (key, value) pairs in insertion
      order;
    - Python strings are modelled on their ASCII range. *)

From Stdlib Require Import ZArith String Ascii List Sorted DecimalString Floats Uint63 Lia.
From Stdlib Require OrderedTypeEx.
From stdpp Require Import gmap strings.

Set Warnings "-inexact-float".
Open Scope string_scope.

(** ** Python string primitives used by the scripts *)

Module PyStr.

(** [str(n)] for a Python [int]. *)
Definition str_of_int (n : Z) : string :=
  NilZero.string_of_int (Z.to_int n).

Fixpoint repeat_char (c : ascii) (n : nat) : string :=
  match n with
  | O => EmptyString
  | S k => String c (repeat_char c k)
  end.

Definition is_sign (c : ascii) : bool :=
  (Ascii.eqb c "+" || Ascii.eqb c "-")%bool.

(** [s.zfill(width)]: left padding with ['0'] up to [width]; a leading sign
    stays in front of the padding.  Strings without a leading sign are
    padded on the left, which is also what an unsigned [pad] would do. *)
Definition zfill (width : nat) (s : string) : string :=
  let fill := (width - String.length s)%nat in
  match s with
  | String c rest =>
      if is_sign c
      then String c (repeat_char "0" fill ++ rest)
      else repeat_char "0" fill ++ s
  | EmptyString => repeat_char "0" fill
  end.

(** [s.startswith(p)] and [s.endswith(p)]. *)
Fixpoint startswith (s p : string) : bool :=
  match p, s with
  | EmptyString, _ => true
  | String _ _, EmptyString => false
  | String b p', String a s' => (Ascii.eqb a b && startswith s' p')%bool
  end.

Fixpoint rev_string (s : string) : string :=
  match s with
  | EmptyString => EmptyString
  | String c s' => rev_string s' ++ String c EmptyString
  end.

Definition endswith (s p : string) : bool :=
  startswith (rev_string s) (rev_string p).

Definition is_digit (c : ascii) : bool :=
  let n := nat_of_ascii c in ((48 <=? n)%nat && (n <=? 57)%nat)%bool.

Fixpoint all_chars (p : ascii -> bool) (s : string) : bool :=
  match s with
  | EmptyString => true
  | String c s' => (p c && all_chars p s')%bool
  end.

(** [s.lower()] on the ASCII range: ['A'..'Z'] move to ['a'..'z']. *)
Definition is_upper (c : ascii) : bool :=
  let n := nat_of_ascii c in ((65 <=? n)%nat && (n <=? 90)%nat)%bool.

Definition lower_char (c : ascii) : ascii :=
  if is_upper c then ascii_of_nat (nat_of_ascii c + 32) else c.

Fixpoint lower (s : string) : string :=
  match s with
  | EmptyString => EmptyString
  | String c s' => String (lower_char c) (lower s')
  end.

(** Characters removed by [s.strip()]: the ASCII characters for which
    [str.isspace] holds (tab .. carriage return, the four separators
    0x1c .. 0x1f, and the space). *)
Definition is_space (c : ascii) : bool :=
  let n := nat_of_ascii c in
  (((9 <=? n)%nat && (n <=? 13)%nat) || ((28 <=? n)%nat && (n <=? 32)%nat))%bool.

Fixpoint lstrip (s : string) : string :=
  match s with
  | EmptyString => EmptyString
  | String c s' => if is_space c then lstrip s' else s
  end.

Definition rstrip (s : string) : string :=
  rev_string (lstrip (rev_string s)).

Definition strip (s : string) : string := rstrip (lstrip s).

(** [s.replace(c, '')] for a one-character pattern. *)
Fixpoint remove_char (c : ascii) (s : string) : string :=
  match s with
  | EmptyString => EmptyString
  | String a s' =>
      if Ascii.eqb a c then remove_char c s' else String a (remove_char c s')
  end.

(** [c in s]. *)
Fixpoint contains_char (c : ascii) (s : string) : bool :=
  match s with
  | EmptyString => false
  | String a s' => (Ascii.eqb a c || contains_char c s')%bool
  end.

End PyStr.

(** ** FIPS codes: [02_data_cleaning.py] and [04_fix_fips_codes.py] *)

Module Fips.
Import PyStr.

(** A cell of the FIPS column before it is turned into text: a text, an
    integer (a cell of an int64 column, or an integer of an object column),
    or a float that holds a whole number (a cell of a float64 column, which
    is what a column of whole numbers with an empty cell is read as). *)
Inductive raw_fips : Type :=
| FipsStr (s : string)
| FipsInt (n : Z)
| FipsFloat (n : Z).

(** [.astype(str)] on one cell; a float that holds a whole number (below
    10^16) is written with its digits and [.0]. *)
Definition astype_str (r : raw_fips) : string :=
  match r with
  | FipsStr s => s
  | FipsInt n => str_of_int n
  | FipsFloat n => str_of_int n ++ ".0"
  end.

(** [col.astype(str).str.zfill(5)] on one cell; the expression occurs in
    [clean_unemployment_data] and twice in [check_and_fix_fips_codes]. *)
Definition normalize_fips (r : raw_fips) : string :=
  zfill 5 (astype_str r).

(** A 5-character, all-digit string. *)
Definition is_fips5 (s : string) : bool :=
  ((String.length s =? 5)%nat && all_chars is_digit s)%bool.

(** A row of the unemployment / income sheet, restricted to the columns the
    counties table is made of. *)
Record source_row : Type := {
  FIPS_Code : option raw_fips;
  State : option string;
  Area_Name : option string;
  Rural_Urban_Continuum_Code_2023 : option Z;
  Urban_Influence_Code_2013 : option Z;
  Metro_2023 : option Z
}.

Record county : Type := {
  fips_code : string;
  state : option string;
  county_name : option string;
  rural_urban_code : option Z;
  urban_influence_code : option Z;
  metro_status : option Z
}.

(** [df.dropna(subset=['FIPS_Code'])] followed by the FIPS normalisation:
    a row without a FIPS cell is dropped, the others get their text code. *)
Definition with_fips (r : source_row) : option (string * source_row) :=
  match FIPS_Code r with
  | Some raw => Some (normalize_fips raw, r)
  | None => None
  end.

Definition is_county_level (p : string * source_row) : bool :=
  negb (endswith (fst p) "000").

Definition to_county (p : string * source_row) : county :=
  {| fips_code := fst p;
     state := State (snd p);
     county_name := Area_Name (snd p);
     rural_urban_code := Rural_Urban_Continuum_Code_2023 (snd p);
     urban_influence_code := Urban_Influence_Code_2013 (snd p);
     metro_status := Metro_2023 (snd p) |}.

(** The counties table built by [clean_unemployment_data]. *)
Definition clean_unemployment_data (df : list source_row) : list county :=
  List.map to_county (List.filter is_county_level (omap with_fips df)).

(** The repair of [check_and_fix_fips_codes] on the FIPS column as it is read
    back from [counties.csv]. *)
Definition check_and_fix_fips_codes (col : list raw_fips) : list string :=
  List.map normalize_fips col.

End Fips.

(** ** Generic table helpers *)

Module Table.

Section Sorting.
Context {A : Type} (leb : A -> A -> bool).

(** Stable insertion: [x] goes in front of the first element it does not
    exceed. *)
Fixpoint insert_sorted (x : A) (l : list A) : list A :=
  match l with
  | [] => [x]
  | y :: l' => if leb x y then x :: l else y :: insert_sorted x l'
  end.

(** A stable sort, as [sort_values] does on several columns and as the
    outer [merge] does on its keys. *)
Definition sort (l : list A) : list A := foldr insert_sorted [] l.

(** The distinct elements of a sorted list. *)
Fixpoint uniq (eqb : A -> A -> bool) (l : list A) : list A :=
  match l with
  | [] => []
  | x :: l' =>
      match l' with
      | y :: _ => if eqb x y then uniq eqb l' else x :: uniq eqb l'
      | [] => [x]
      end
  end.
End Sorting.

(** Lexicographic order on pairs. *)
Definition lex_leb {A B : Type} (ltA : A -> A -> bool) (eqA : A -> A -> bool)
    (leB : B -> B -> bool) (p q : A * B) : bool :=
  (ltA (fst p) (fst q) || (eqA (fst p) (fst q) && leB (snd p) (snd q)))%bool.

(** [int -> float64] conversion of a count. *)
Definition float_of_nat (n : nat) : float :=
  PrimFloat.of_uint63 (Uint63.of_Z (Z.of_nat n)).

(** One step of the compensated (Kahan) sum that pandas' [group_mean] keeps
    for every group and column: the running sum and its compensation term.
    A compensation term that is NaN, as it is after an infinite value, is
    put back to zero. *)
Definition kahan_step (acc : float * float) (val : float) : float * float :=
  let y := (val - snd acc)%float in
  let t := (fst acc + y)%float in
  let compensation := (t - fst acc - y)%float in
  (t, if is_nan compensation then 0%float else compensation).

(** The mean of a float64 column of one group, as
    [groupby(...).agg({... 'mean'})] takes it: missing values are skipped, a
    column without any observation has a missing mean, and the observations
    are added in row order by the compensated sum, which is then divided by
    their number. *)
Definition mean (xs : list float) : float :=
  let obs := List.filter (fun x => negb (is_nan x)) xs in
  match obs with
  | [] => nan
  | _ :: _ =>
      (fst (fold_left kahan_step obs (0%float, 0%float))
       / float_of_nat (length obs))%float
  end.

End Table.

(** ** Reshaping and derived metrics: [03_housing_and_population_cleaning.py] *)

Module Housing.
Import PyStr Table.

(** A price-tier CSV: the four identifier columns of every row, and one cell
    per remaining column header (in header order). *)
Module Wide.
Record row : Type := {
  RegionID : Z;
  RegionName : option string;
  StateName : option string;
  State : option string;
  cells : list float
}.
Record t : Type := { columns : list string; rows : list row }.
End Wide.

(** ['-' in str(col) and len(str(col)) == 10] *)
Definition is_date_col (col : string) : bool :=
  (contains_char "-" col && (String.length col =? 10)%nat)%bool.

Definition date_cols (df : Wide.t) : list string :=
  List.filter is_date_col (Wide.columns df).

Module Melted.
Record row : Type := {
  RegionID : Z;
  RegionName : option string;
  StateName : option string;
  State : option string;
  date : string;
  price : float
}.
End Melted.

Definition melt_cell (i : nat) (col : string) (r : Wide.row) : Melted.row :=
  {| Melted.RegionID := Wide.RegionID r;
     Melted.RegionName := Wide.RegionName r;
     Melted.StateName := Wide.StateName r;
     Melted.State := Wide.State r;
     Melted.date := col;
     Melted.price := nth i (Wide.cells r) nan |}.

(** [df.melt(id_vars=..., value_vars=date_cols, var_name='date', ...)]: one
    block of rows per date column, in header order; a cell keeps its value,
    missing or not. *)
Definition melt (df : Wide.t) : list Melted.row :=
  flat_map
    (fun ic : nat * string =>
       if is_date_col (snd ic)
       then List.map (melt_cell (fst ic) (snd ic)) (Wide.rows df)
       else [])
    (combine (seq 0 (length (Wide.columns df))) (Wide.columns df)).

(** The outer join of the two melted tables, before the date is parsed. *)
Module Joined.
Record row : Type := {
  RegionID : Z;
  RegionName : option string;
  StateName : option string;
  State : option string;
  date : string;
  bottom_tier_price : float;
  top_tier_price : float
}.
End Joined.

Definition same_key (l r : Melted.row) : bool :=
  ((Melted.RegionID l =? Melted.RegionID r)%Z
   && String.eqb (Melted.date l) (Melted.date r))%bool.

Definition join_pair (l : Melted.row) (top : float) : Joined.row :=
  {| Joined.RegionID := Melted.RegionID l;
     Joined.RegionName := Melted.RegionName l;
     Joined.StateName := Melted.StateName l;
     Joined.State := Melted.State l;
     Joined.date := Melted.date l;
     Joined.bottom_tier_price := Melted.price l;
     Joined.top_tier_price := top |}.

(** A key of the right table only: the columns of the left table are
    missing. *)
Definition join_right_only (r : Melted.row) : Joined.row :=
  {| Joined.RegionID := Melted.RegionID r;
     Joined.RegionName := None;
     Joined.StateName := None;
     Joined.State := None;
     Joined.date := Melted.date r;
     Joined.bottom_tier_price := nan;
     Joined.top_tier_price := Melted.price r |}.

Definition join_left (right : list Melted.row) (l : Melted.row) : list Joined.row :=
  match List.filter (same_key l) right with
  | [] => [join_pair l nan]
  | m :: ms => List.map (fun r => join_pair l (Melted.price r)) (m :: ms)
  end.

Definition joined_leb (a b : Joined.row) : bool :=
  lex_leb Z.ltb Z.eqb String.leb
    (Joined.RegionID a, Joined.date a) (Joined.RegionID b, Joined.date b).

(** [left.merge(right[['RegionID', 'date', 'top_tier_price']],
    on=['RegionID', 'date'], how='outer')]: every left row paired with each
    right row of its key, or with a missing top price when there is none;
    then the right rows whose key no left row has; keys in lexicographic
    order. *)
Definition merge_outer (left right : list Melted.row) : list Joined.row :=
  sort joined_leb
    (flat_map (join_left right) left
     ++ List.map join_right_only
          (List.filter (fun r => negb (existsb (fun l => same_key l r) left)) right)).

(** A parsed date: year, month, day. *)
Definition digit_val (c : ascii) : option Z :=
  if is_digit c then Some (Z.of_nat (nat_of_ascii c) - 48)%Z else None.

Fixpoint digits_val (acc : Z) (cs : list ascii) : option Z :=
  match cs with
  | [] => Some acc
  | c :: cs' =>
      match digit_val c with
      | Some d => digits_val (10 * acc + d)%Z cs'
      | None => None
      end
  end.

Definition is_leap (y : Z) : bool :=
  (((y mod 4 =? 0) && negb (y mod 100 =? 0)) || (y mod 400 =? 0))%Z%bool.

Definition days_in_month (y m : Z) : Z :=
  if (m =? 2)%Z then (if is_leap y then 29 else 28)%Z
  else if ((m =? 4) || (m =? 6) || (m =? 9) || (m =? 11))%Z%bool then 30%Z
  else 31%Z.

(** [pd.to_datetime] on one header of the form [YYYY-MM-DD], the form the
    source's column filter is written for and the only one read here: any
    other text gives [None], also where pandas would still find a date in
    it, and the years are kept inside a range every Timestamp can hold.
    [Reshape] below takes the date reader as a parameter instead. *)
Definition to_datetime (s : string) : option (Z * Z * Z) :=
  match list_ascii_of_string s with
  | [y1; y2; y3; y4; s1; m1; m2; s2; d1; d2] =>
      if (Ascii.eqb s1 "-" && Ascii.eqb s2 "-")%bool then
        match digits_val 0 [y1; y2; y3; y4], digits_val 0 [m1; m2],
              digits_val 0 [d1; d2] with
        | Some y, Some m, Some d =>
            if ((1678 <=? y) && (y <=? 2261) && (1 <=? m) && (m <=? 12)
                && (1 <=? d) && (d <=? days_in_month y m))%Z%bool
            then Some (y, m, d) else None
        | _, _, _ => None
        end
      else None
  | _ => None
  end.

Module Monthly.
Record row : Type := {
  RegionID : Z;
  RegionName : option string;
  StateName : option string;
  State : option string;
  date : Z * Z * Z;
  bottom_tier_price : float;
  top_tier_price : float;
  year : Z;
  month : Z;
  county_name : option string
}.
End Monthly.

(** The date conversion and the [year], [month] and [county_name] columns. *)
Definition with_date (j : Joined.row) : option Monthly.row :=
  match to_datetime (Joined.date j) with
  | Some (y, m, d) =>
      Some {| Monthly.RegionID := Joined.RegionID j;
              Monthly.RegionName := Joined.RegionName j;
              Monthly.StateName := Joined.StateName j;
              Monthly.State := Joined.State j;
              Monthly.date := (y, m, d);
              Monthly.bottom_tier_price := Joined.bottom_tier_price j;
              Monthly.top_tier_price := Joined.top_tier_price j;
              Monthly.year := y;
              Monthly.month := m;
              Monthly.county_name := Joined.RegionName j |}
  | None => None
  end.

(** [dropna(subset=['bottom_tier_price', 'top_tier_price'], how='all')]
    keeps a row unless both prices are missing. *)
Definition has_price (r : Monthly.row) : bool :=
  negb (is_nan (Monthly.bottom_tier_price r) && is_nan (Monthly.top_tier_price r)).

(** [reshape_housing_data], from the two tables read from the CSV files,
    for date headers of the form [YYYY-MM-DD].  The result is [None] when
    the bottom table has no date column (the date-range message indexes the
    empty list) and when a header is not of that form. *)
Definition reshape_housing_data (bottom_df top_df : Wide.t)
    : option (list Monthly.row) :=
  match date_cols bottom_df with
  | [] => None
  | _ :: _ =>
      match mapM with_date (merge_outer (melt bottom_df) (melt top_df)) with
      | Some housing_prices => Some (List.filter has_price housing_prices)
      | None => None
      end
  end.

(** *** Annual means *)

Definition group_key : Type := Z * (string * Z).

(** The key of a monthly row in
    [groupby(['RegionID', 'county_name', 'year'])]; rows with a missing key
    column belong to no group. *)
Definition key_of (r : Monthly.row) : option group_key :=
  match Monthly.county_name r with
  | Some n => Some (Monthly.RegionID r, (n, Monthly.year r))
  | None => None
  end.

Definition key_eqb (a b : group_key) : bool :=
  ((fst a =? fst b)%Z && String.eqb (fst (snd a)) (fst (snd b))
   && (snd (snd a) =? snd (snd b))%Z)%bool.

Definition key_leb : group_key -> group_key -> bool :=
  lex_leb Z.ltb Z.eqb (lex_leb String.ltb String.eqb Z.leb).

Definition in_group (k : group_key) (r : Monthly.row) : bool :=
  match key_of r with
  | Some k' => key_eqb k k'
  | None => false
  end.

(** The group keys, sorted, each once. *)
Definition group_keys (housing_df : list Monthly.row) : list group_key :=
  uniq key_eqb (sort key_leb (omap key_of housing_df)).

Module Annual.
Record row : Type := {
  RegionID : Z;
  county_name : string;
  year : Z;
  bottom_tier_price : float;
  top_tier_price : float
}.
End Annual.

Definition aggregate (housing_df : list Monthly.row) (k : group_key) : Annual.row :=
  let members := List.filter (in_group k) housing_df in
  {| Annual.RegionID := fst k;
     Annual.county_name := fst (snd k);
     Annual.year := snd (snd k);
     Annual.bottom_tier_price := mean (List.map Monthly.bottom_tier_price members);
     Annual.top_tier_price := mean (List.map Monthly.top_tier_price members) |}.

(** [housing_df.groupby([...]).agg({... 'mean'}).reset_index()] *)
Definition annual_means (housing_df : list Monthly.row) : list Annual.row :=
  List.map (aggregate housing_df) (group_keys housing_df).

(** *** Affordability *)

Module Affordability.
Record row : Type := {
  RegionID : Z;
  county_name : string;
  year : Z;
  bottom_tier_price : float;
  top_tier_price : float;
  bottom_tier_annual_cost : float;
  top_tier_annual_cost : float;
  bottom_tier_min_salary : float;
  top_tier_min_salary : float
}.
End Affordability.

Definition annual_cost (price : float) : float := (price * 0.05)%float.
Definition min_salary (cost : float) : float := (cost / 0.30)%float.

Definition affordability_of (a : Annual.row) : Affordability.row :=
  let bottom_cost := annual_cost (Annual.bottom_tier_price a) in
  let top_cost := annual_cost (Annual.top_tier_price a) in
  {| Affordability.RegionID := Annual.RegionID a;
     Affordability.county_name := Annual.county_name a;
     Affordability.year := Annual.year a;
     Affordability.bottom_tier_price := Annual.bottom_tier_price a;
     Affordability.top_tier_price := Annual.top_tier_price a;
     Affordability.bottom_tier_annual_cost := bottom_cost;
     Affordability.top_tier_annual_cost := top_cost;
     Affordability.bottom_tier_min_salary := min_salary bottom_cost;
     Affordability.top_tier_min_salary := min_salary top_cost |}.

Definition calculate_affordability_metrics (housing_df : list Monthly.row)
    : list Affordability.row :=
  List.map affordability_of (annual_means housing_df).

(** *** Year-over-year growth *)

(** What [pct_change] does with missing values before dividing.  Its default
    depends on the pandas release (forward fill up to 2.x, no fill from
    3.0); the source passes no argument, so results are stated for both. *)
Inductive fill_method : Type := Ffill | NoFill.

Fixpoint ffill_from (last : float) (xs : list float) : list float :=
  match xs with
  | [] => []
  | x :: xs' =>
      let y := if is_nan x then last else x in
      y :: ffill_from y xs'
  end.

Definition fill (fm : fill_method) (xs : list float) : list float :=
  match fm with
  | Ffill => ffill_from nan xs
  | NoFill => xs
  end.

(** [s.shift(1)] *)
Definition shift (xs : list float) : list float :=
  match xs with
  | [] => []
  | _ :: _ => nan :: removelast xs
  end.

(** [s.pct_change()]: [filled / filled.shift(1) - 1]. *)
Definition pct_change (fm : fill_method) (xs : list float) : list float :=
  let filled := fill fm xs in
  zip_with (fun a b => (a / b - 1)%float) filled (shift filled).

(** [df.groupby(key)[col].<f>()] for a transformation [f] of a series: the
    result of [f] on the rows of each key, put back at the rows' places. *)
Fixpoint transform_from (f : list float -> list float) (all : list (Z * float))
    (seen : list Z) (rest : list (Z * float)) : list float :=
  match rest with
  | [] => []
  | (k, _) :: rest' =>
      let series := List.map snd (List.filter (fun p => (fst p =? k)%Z) all) in
      nth (count_occ Z.eq_dec seen k) (f series) nan
        :: transform_from f all (k :: seen) rest'
  end.

Definition groupby_transform (f : list float -> list float)
    (col : list (Z * float)) : list float :=
  transform_from f col [] col.

Module Trend.
Record row : Type := {
  RegionID : Z;
  county_name : string;
  year : Z;
  bottom_tier_price : float;
  top_tier_price : float;
  bottom_tier_growth : float;
  top_tier_growth : float
}.
End Trend.

Definition annual_leb (a b : Annual.row) : bool :=
  lex_leb Z.ltb Z.eqb Z.leb
    (Annual.RegionID a, Annual.year a) (Annual.RegionID b, Annual.year b).

(** The growth column of one price column:
    [groupby('RegionID')[col].pct_change() * 100]. *)
Definition growth_column (fm : fill_method) (price : Annual.row -> float)
    (annual_trends : list Annual.row) : list float :=
  List.map (fun g => (g * 100)%float)
    (groupby_transform (pct_change fm)
       (List.map (fun a => (Annual.RegionID a, price a)) annual_trends)).

Definition trend_of (a : Annual.row) (g : float * float) : Trend.row :=
  {| Trend.RegionID := Annual.RegionID a;
     Trend.county_name := Annual.county_name a;
     Trend.year := Annual.year a;
     Trend.bottom_tier_price := Annual.bottom_tier_price a;
     Trend.top_tier_price := Annual.top_tier_price a;
     Trend.bottom_tier_growth := fst g;
     Trend.top_tier_growth := snd g |}.

Definition create_annual_price_trends (fm : fill_method)
    (housing_df : list Monthly.row) : list Trend.row :=
  let annual_trends := sort annual_leb (annual_means housing_df) in
  zip_with trend_of annual_trends
    (combine (growth_column fm Annual.bottom_tier_price annual_trends)
             (growth_column fm Annual.top_tier_price annual_trends)).

End Housing.

(** ** Name matching: [04_fix_fips_codes.py] *)

Module Names.
Import PyStr Table.

(** A Python [dict]: keys in order of first insertion, a later value for a
    key already present takes the place of the earlier one. *)
Section Dict.
Context {K V : Type} `{EqDecision K}.

Fixpoint dict_set (k : K) (v : V) (d : list (K * V)) : list (K * V) :=
  match d with
  | [] => [(k, v)]
  | (k', v') :: d' =>
      if decide (k = k') then (k, v) :: d' else (k', v') :: dict_set k v d'
  end.

Fixpoint dict_get (k : K) (d : list (K * V)) : option V :=
  match d with
  | [] => None
  | (k', v') :: d' => if decide (k = k') then Some v' else dict_get k d'
  end.

(** One insertion of [dict(pairs)]. *)
Definition dict_step (d : list (K * V)) (kv : K * V) : list (K * V) :=
  dict_set (fst kv) (snd kv) d.

(** [dict(pairs)] *)
Definition dict_of_pairs (pairs : list (K * V)) : list (K * V) :=
  fold_left dict_step pairs [].
End Dict.

(** A key is a cleaned name; the missing name is a key like any other. *)
Definition name_key : Type := option string.
Definition fips_dict : Type := list (name_key * string).

(** [col.str.lower().str.strip()], the cleaning of the county table and of
    the housing tables. *)
Definition clean_county_name (name : option string) : name_key :=
  strip <$> (lower <$> name).

(** [col.str.replace('.', '', regex=False).str.lower().str.strip()], the
    cleaning of the population table. *)
Definition clean_population_county_name (name : option string) : name_key :=
  strip <$> (lower <$> (remove_char "." <$> name)).

(** What [create_county_name_to_fips_mapping] returns, prints and saves. *)
Record mapping_result : Type := {
  fips_mapping : fips_dict;
  printed_size : nat;
  printed_samples : list (name_key * string);
  mapping_df : list (string * option string * option string)
}.

Definition create_county_name_to_fips_mapping (counties_df : list Fips.county)
    : mapping_result :=
  let clean := List.map (fun c => clean_county_name (Fips.county_name c)) counties_df in
  let mapping := dict_of_pairs (combine clean (List.map Fips.fips_code counties_df)) in
  {| fips_mapping := mapping;
     printed_size := length mapping;
     printed_samples := firstn 5 mapping;
     mapping_df :=
       List.map (fun c => (Fips.fips_code c, Fips.county_name c, Fips.state c))
         counties_df |}.

(** The success message: both counts and the percentage (the message shows
    the percentage with one decimal). *)
Record match_report : Type := {
  mapped_count : nat;
  total_count : nat;
  success_percent : float
}.

(** [mapped_count / total_count], the ratio the percentage is made of. *)
Definition match_rate (r : match_report) : float :=
  (float_of_nat (mapped_count r) / float_of_nat (total_count r))%float.

Section Attach.
Context {R : Type} (county_name : R -> option string)
        (clean : option string -> name_key).

(** [df['fips_code'] = df['clean_county_name'].map(fips_mapping)]: the row
    with its looked-up code, missing when the name is no key. *)
Definition map_fips (mapping : fips_dict) (df : list R)
    : list (R * option string) :=
  List.map (fun r => (r, dict_get (clean (county_name r)) mapping)) df.

(** [df['fips_code'].notna().sum()], [len(df)] and the percentage. *)
Definition report_of (df : list (R * option string)) : match_report :=
  let mapped := length (List.filter (fun p => bool_decide (is_Some (snd p))) df) in
  let total := length df in
  {| mapped_count := mapped;
     total_count := total;
     success_percent := (float_of_nat mapped / float_of_nat total * 100)%float |}.
End Attach.

Record housing_result : Type := {
  affordability_df : list (Housing.Affordability.row * option string);
  trends_df : list (Housing.Trend.row * option string);
  housing_report : match_report
}.

Definition add_fips_to_housing_data (fips_mapping : fips_dict)
    (affordability : list Housing.Affordability.row)
    (trends : list Housing.Trend.row) : housing_result :=
  let affordability_df :=
    map_fips (fun r => Some (Housing.Affordability.county_name r))
      clean_county_name fips_mapping affordability in
  {| affordability_df := affordability_df;
     trends_df :=
       map_fips (fun r => Some (Housing.Trend.county_name r))
         clean_county_name fips_mapping trends;
     housing_report := report_of affordability_df |}.

(** A row of [population_annual.csv]. *)
Module Population.
Record row : Type := {
  county_name : option string;
  year : Z;
  population : Z
}.
End Population.

Record population_result : Type := {
  population_df : list (Population.row * option string);
  population_report : match_report
}.

Definition add_fips_to_population_data (fips_mapping : fips_dict)
    (population : list Population.row) : population_result :=
  let population_df :=
    map_fips Population.county_name clean_population_county_name
      fips_mapping population in
  {| population_df := population_df;
     population_report := report_of population_df |}.

End Names.

(** ** Further string primitives *)

Module PyText.
Import PyStr.

(** [s.isdigit()] on the ASCII range: at least one character, all digits. *)
Definition isdigit (s : string) : bool :=
  match s with
  | EmptyString => false
  | String _ _ => all_chars is_digit s
  end.

(** [int(s)] for a text of digits. *)
Definition int_of_digits (s : string) : Z :=
  match Housing.digits_val 0 (list_ascii_of_string s) with
  | Some n => n
  | None => 0%Z
  end.

(** [p in s], which is also [s.str.contains(p)] for a pattern without
    special characters. *)
Fixpoint contains (s p : string) : bool :=
  (startswith s p
   || match s with
      | EmptyString => false
      | String _ s' => contains s' p
      end)%bool.

End PyText.

(** ** The economic table: [02_data_cleaning.py] *)

Module Economic.
Import PyStr Table.

(** A row of the unemployment / income sheet with, besides the columns of
    the counties table, the columns [Unemployment_rate_<year>] (read by
    year) and [Median_Household_Income_2022]. *)
Module Source.
Record row : Type := {
  county : Fips.source_row;
  Unemployment_rate : Z -> float;
  Median_Household_Income_2022 : float
}.
End Source.

(** The sheet after [dropna(subset=['FIPS_Code'])], the FIPS normalisation
    and the county-level filter: the kept rows with their text code. *)
Definition with_fips (r : Source.row) : option (string * Source.row) :=
  match Fips.FIPS_Code (Source.county r) with
  | Some raw => Some (Fips.normalize_fips raw, r)
  | None => None
  end.

Definition county_rows (df : list Source.row) : list (string * Source.row) :=
  List.filter (fun p => negb (endswith (fst p) "000")) (omap with_fips df).

(** [range(2000, 2024)] *)
Definition years : list Z :=
  List.map (fun i => (2000 + Z.of_nat i)%Z) (seq 0 24).

Module YearData.
Record row : Type := {
  fips_code : string;
  unemployment_rate : float;
  year : Z
}.
End YearData.

(** The rows of one year: code, rate and year of every county-level row
    whose rate of that year is not missing. *)
Definition year_data (rows : list (string * Source.row)) (year : Z)
    : list YearData.row :=
  omap (fun p =>
          let rate := Source.Unemployment_rate (snd p) year in
          if is_nan rate then None
          else Some {| YearData.fips_code := fst p;
                       YearData.unemployment_rate := rate;
                       YearData.year := year |})
       rows.

(** [pd.concat(economic_data, ignore_index=True)] *)
Definition economic_data (rows : list (string * Source.row)) : list YearData.row :=
  flat_map (year_data rows) years.

(** The income table: code and income of the rows with an income. *)
Definition income_data (rows : list (string * Source.row))
    : list (string * float) :=
  omap (fun p =>
          let income := Source.Median_Household_Income_2022 (snd p) in
          if is_nan income then None else Some (fst p, income))
       rows.

Module Annual.
Record row : Type := {
  fips_code : string;
  unemployment_rate : float;
  year : Z;
  median_household_income_2022 : float
}.
End Annual.

Definition with_income (l : YearData.row) (income : float) : Annual.row :=
  {| Annual.fips_code := YearData.fips_code l;
     Annual.unemployment_rate := YearData.unemployment_rate l;
     Annual.year := YearData.year l;
     Annual.median_household_income_2022 := income |}.

Definition join_income (right : list (string * float)) (l : YearData.row)
    : list Annual.row :=
  match List.filter (fun r => String.eqb (fst r) (YearData.fips_code l)) right with
  | [] => [with_income l nan]
  | m :: ms => List.map (fun r => with_income l (snd r)) (m :: ms)
  end.

(** [economic_df.merge(income_data, on='fips_code', how='left')]: the left
    rows in their order, each once per income row of its code, or once with
    a missing income when there is none. *)
Definition merge_income (left : list YearData.row) (right : list (string * float))
    : list Annual.row :=
  flat_map (join_income right) left.

(** [clean_unemployment_data]: the counties table and the economic table. *)
Definition clean_unemployment_data (df : list Source.row)
    : list Fips.county * list Annual.row :=
  (Fips.clean_unemployment_data (List.map Source.county df),
   merge_income (economic_data (county_rows df)) (income_data (county_rows df))).

End Economic.

(** ** Reading the FIPS column back: [04_fix_fips_codes.py] *)

Module CountiesCsv.
Import PyStr PyText.

(** The [fips_code] column of [counties.csv] as [read_csv] returns it when
    every cell is a run of digits: a column of integers, the leading zeros
    gone.  Other columns are not modelled ([None]). *)
Definition read_fips_column (cells : list string) : option (list Fips.raw_fips) :=
  if forallb isdigit cells
  then Some (List.map (fun s => Fips.FipsInt (int_of_digits s)) cells)
  else None.

(** The first step of [check_and_fix_fips_codes] on the codes written by the
    cleaning step. *)
Definition reread_and_fix (codes : list string) : option (list string) :=
  match read_fips_column codes with
  | Some col => Some (Fips.check_and_fix_fips_codes col)
  | None => None
  end.

End CountiesCsv.

(** ** The population table: [03_housing_and_population_cleaning.py] *)

Module PopulationSheet.
Import PyStr PyText.

(** A cell of the sheet: a text, a whole number or an empty cell. *)
Inductive cell : Type :=
| Text (s : string)
| Count (n : Z)
| Missing.

(** The sheet: the column labels (as [str(col)] gives them) and, for every
    row, its cells in column order. *)
Record t : Type := { columns : list string; rows : list (list cell) }.

(** [str(x)] of a cell, as [astype(str)] takes it. *)
Definition cell_str (c : cell) : string :=
  match c with
  | Text s => s
  | Count n => str_of_int n
  | Missing => "nan"
  end.

(** [pd.notna(x)] *)
Definition notna (c : cell) : bool :=
  match c with
  | Missing => false
  | _ => true
  end.

Definition cell_at (i : nat) (r : list cell) : cell := nth i r Missing.

(** [df.iloc[:, 0].astype(str)] on one row. *)
Definition area (r : list cell) : string := cell_str (cell_at 0 r).

(** [df.columns = [str(col).strip() for col in df.columns]] *)
Definition labels (df : t) : list string := List.map strip (columns df).

(** The rows of [county_mask]. *)
Definition county_df (df : t) : list (list cell) :=
  List.filter (fun r => contains (area r) "County") (rows df).

(** [year_columns], each with its position. *)
Definition year_columns (df : t) : list (nat * string) :=
  List.filter (fun il => isdigit (snd il))
    (combine (seq 0 (length (labels df))) (labels df)).

Module Long.
Record row : Type := {
  county_name : string;
  year : Z;
  population : cell
}.
End Long.

Definition long_rows (years : list (nat * string)) (r : list cell)
    : list Long.row :=
  omap (fun il =>
          if notna (cell_at (fst il) r)
          then Some {| Long.county_name := area r;
                       Long.year := int_of_digits (snd il);
                       Long.population := cell_at (fst il) r |}
          else None)
       years.

(** [clean_population_data].  The function fails ([None]) on a sheet without
    columns (there is no first column), and when a year label comes twice
    and there is a county row ([row[year_col]] is then no single cell). *)
Definition clean_population_data (df : t) : option (list Long.row) :=
  match columns df with
  | [] => None
  | _ :: _ =>
      let years := year_columns df in
      match county_df df with
      | [] => Some []
      | _ :: _ =>
          if bool_decide (NoDup (List.map snd years))
          then Some (flat_map (long_rows years) (county_df df))
          else None
      end
  end.

End PopulationSheet.

(** ** Reshaping, with the date reader as a parameter:
       [03_housing_and_population_cleaning.py] *)

Module Reshape.
Import PyStr Table Housing.

(** A joined row with its Timestamp and the [year], [month] and
    [county_name] columns. *)
Definition with_day (j : Joined.row) (ymd : Z * Z * Z) : Monthly.row :=
  {| Monthly.RegionID := Joined.RegionID j;
     Monthly.RegionName := Joined.RegionName j;
     Monthly.StateName := Joined.StateName j;
     Monthly.State := Joined.State j;
     Monthly.date := ymd;
     Monthly.bottom_tier_price := Joined.bottom_tier_price j;
     Monthly.top_tier_price := Joined.top_tier_price j;
     Monthly.year := fst (fst ymd);
     Monthly.month := snd (fst ymd);
     Monthly.county_name := Joined.RegionName j |}.

Section Reader.
(** [pd.to_datetime] on the date column of the joined table: the calendar
    day of every Timestamp, in row order, or [None] when the call raises.
    Which texts pandas reads as a date, and how, is left open. *)
Variable to_datetime : list string -> option (list (Z * Z * Z)).

(** [reshape_housing_data], from the two tables read from the CSV files.
    The function fails ([None]) when the bottom table has no date column
    (the date-range message indexes the empty list) and when
    [pd.to_datetime] raises. *)
Definition reshape_housing_data (bottom_df top_df : Wide.t)
    : option (list Monthly.row) :=
  match date_cols bottom_df with
  | [] => None
  | _ :: _ =>
      let housing_prices := merge_outer (melt bottom_df) (melt top_df) in
      match to_datetime (List.map Joined.date housing_prices) with
      | Some dates =>
          Some (List.filter has_price
                  (zip_with with_day housing_prices dates))
      | None => None
      end
  end.
End Reader.

(** The reader of [Housing.to_datetime]: every text is read on its own, as
    a date of the form [YYYY-MM-DD]. *)
Definition iso_reader (col : list string) : option (list (Z * Z * Z)) :=
  mapM Housing.to_datetime col.

End Reshape.
(** * Vocabulary of the properties *)

Module Props.
Import PyStr Table Housing Names.

(** The growth formula of [pct_change() * 100] on one pair of prices. *)
Definition growth_value (prev cur : float) : float :=
  ((cur / prev - 1) * 100)%float.

(** The first character is white space. *)
Definition starts_with_space (s : string) : bool :=
  match s with
  | String c _ => is_space c
  | EmptyString => false
  end.

(** No white space at either end. *)
Definition whitespace_stripped (s : string) : bool :=
  (negb (starts_with_space s) && negb (starts_with_space (rev_string s)))%bool.

(** No upper-case letter. *)
Definition is_lowercase (s : string) : bool :=
  all_chars (fun c => negb (is_upper c)) s.

(** No period. *)
Definition period_free (s : string) : bool :=
  all_chars (fun c => negb (Ascii.eqb c ".")) s.

(** The key a county record is entered under. *)
Definition cleaned_key (c : Fips.county) : name_key :=
  clean_county_name (Fips.county_name c).

(** The last county record whose cleaned name is [k]. *)
Definition last_county (k : name_key) (counties_df : list Fips.county)
    : option Fips.county :=
  List.find (fun c => bool_decide (cleaned_key c = k)) (rev counties_df).

(** The number of rows that carry a code. *)
Definition matched {R : Type} (df : list (R * option string)) : nat :=
  length (List.filter (fun p => bool_decide (is_Some (snd p))) df).

(** The quotients of a series, each value against the one before it. *)
Fixpoint ratio_from (prev : float) (xs : list float) : list float :=
  match xs with
  | [] => []
  | x :: xs' => (x / prev - 1)%float :: ratio_from x xs'
  end.

(** The growth of a series in percent. *)
Definition growth_of_series (fm : fill_method) (xs : list float) : list float :=
  List.map (fun g => (g * 100)%float) (pct_change fm xs).

(** The rows of one key in a keyed column, and their values. *)
Definition has_key (k : Z) {B : Type} (p : Z * B) : bool := (fst p =? k)%Z.

Definition series_of (k : Z) (col : list (Z * float)) : list float :=
  List.map snd (List.filter (has_key k) col).

(** The two price tiers, and their columns in the annual and trend tables. *)
Inductive tier : Type := Bottom | Top.

Definition annual_price (t : tier) : Annual.row -> float :=
  match t with
  | Bottom => Annual.bottom_tier_price
  | Top => Annual.top_tier_price
  end.

Definition price_of (t : tier) : Trend.row -> float :=
  match t with
  | Bottom => Trend.bottom_tier_price
  | Top => Trend.top_tier_price
  end.

Definition growth_of (t : tier) : Trend.row -> float :=
  match t with
  | Bottom => Trend.bottom_tier_growth
  | Top => Trend.top_tier_growth
  end.

(** The rows of one region, in table order. *)
Definition region_rows (rid : Z) (trends : list Trend.row) : list Trend.row :=
  List.filter (fun t => (Trend.RegionID t =? rid)%Z) trends.

(** The order of [sort_values(['RegionID', 'year'])] on the trend table. *)
Definition trend_leb (a b : Trend.row) : bool :=
  lex_leb Z.ltb Z.eqb Z.leb
    (Trend.RegionID a, Trend.year a) (Trend.RegionID b, Trend.year b).

(** The group key of an annual row. *)
Definition row_key (r : Affordability.row) : group_key :=
  (Affordability.RegionID r,
   (Affordability.county_name r, Affordability.year r)).

(** The monthly rows an annual row is the mean of. *)
Definition members_of (housing_df : list Monthly.row) (r : Affordability.row)
    : list Monthly.row :=
  List.filter (in_group (row_key r)) housing_df.




End Props.

(** * Sample tables *)

Module Samples.
Import PyStr Table Fips Housing Names Props.

(** Two rows of the sheet: the state of Alabama and one of its counties. *)
Definition sheet_row (code : Z) (area : string) : source_row :=
  {| FIPS_Code := Some (FipsInt code);
     State := Some "AL";
     Area_Name := Some area;
     Rural_Urban_Continuum_Code_2023 := None;
     Urban_Influence_Code_2013 := None;
     Metro_2023 := None |}.

Definition sample_sheet : list source_row :=
  [sheet_row 1000 "Alabama"; sheet_row 1001 "Autauga County, AL"].

Definition autauga : county :=
  to_county ("01001", sheet_row 1001 "Autauga County, AL").

(** Two counties of different states with one name. *)
Definition washington_al : Fips.county :=
  {| Fips.fips_code := "01129"; Fips.state := Some "AL";
     Fips.county_name := Some "Washington County";
     Fips.rural_urban_code := None; Fips.urban_influence_code := None;
     Fips.metro_status := None |}.

Definition washington_ar : Fips.county :=
  {| Fips.fips_code := "05143"; Fips.state := Some "AR";
     Fips.county_name := Some "Washington County";
     Fips.rural_urban_code := None; Fips.urban_influence_code := None;
     Fips.metro_status := None |}.

(** A county table of 100 records, and a population table of 120 rows of
    which the first 90 carry the name of a county (with the leading period
    and the capitals of the population source). *)
Definition sample_county (i : nat) : Fips.county :=
  {| Fips.fips_code := Fips.normalize_fips (Fips.FipsInt (1001 + Z.of_nat i));
     Fips.state := Some "AL";
     Fips.county_name := Some ("County " ++ str_of_int (Z.of_nat i));
     Fips.rural_urban_code := None; Fips.urban_influence_code := None;
     Fips.metro_status := None |}.

Definition sample_counties : list Fips.county :=
  List.map sample_county (seq 0 100).

Definition sample_population : list Population.row :=
  List.map (fun i => {| Population.county_name :=
                          Some (".County " ++ str_of_int (Z.of_nat i));
                        Population.year := 2020;
                        Population.population := 1000 |}) (seq 0 90)
  ++ List.map (fun i => {| Population.county_name :=
                             Some (".Parish " ++ str_of_int (Z.of_nat i));
                           Population.year := 2020;
                           Population.population := 1000 |}) (seq 0 30).

Definition sample_mapping : fips_dict :=
  fips_mapping (create_county_name_to_fips_mapping sample_counties).

(** A month of one region with the same name and state on every row. *)
Definition monthly_row (rid : Z) (name : string) (y m : Z) (bottom top : float)
    : Monthly.row :=
  {| Monthly.RegionID := rid;
     Monthly.RegionName := Some name;
     Monthly.StateName := Some "CA";
     Monthly.State := Some "CA";
     Monthly.date := (y, m, 28%Z);
     Monthly.bottom_tier_price := bottom;
     Monthly.top_tier_price := top;
     Monthly.year := y;
     Monthly.month := m;
     Monthly.county_name := Some name |}.

(** One region whose annual means are 100, 110 and 99. *)
Definition three_years : list Monthly.row :=
  [ monthly_row 1 "Alameda County" 2001 1 110 220;
    monthly_row 1 "Alameda County" 2000 1 100 200;
    monthly_row 1 "Alameda County" 2002 1 99 198 ].

(** One region whose annual mean is 0 in the first year. *)
Definition zero_then_100 : list Monthly.row :=
  [ monthly_row 1 "Alameda County" 2000 1 0 nan;
    monthly_row 1 "Alameda County" 2001 1 100 nan ].



(** A year whose monthly bottom prices are 0 and whose top prices are
    missing. *)
Definition zero_year : list Monthly.row :=
  [ monthly_row 1 "Alameda County" 2022 1 0 nan;
    monthly_row 1 "Alameda County" 2022 2 0 nan ].

(** Its row in the affordability table. *)
Definition zero_year_row : Affordability.row :=
  affordability_of (aggregate zero_year (1%Z, ("Alameda County", 2022%Z))).

(** A row of a price-tier table. *)
Definition alameda (cells : list float) : Wide.row :=
  {| Wide.RegionID := 7; Wide.RegionName := Some "Alameda County";
     Wide.StateName := Some "CA"; Wide.State := Some "CA";
     Wide.cells := cells |}.

(** February 2000 is a column of the bottom-tier table only. *)
Definition bottom_sample : Wide.t :=
  {| Wide.columns := ["2000-01-31"; "2000-02-29"; "SizeRank"];
     Wide.rows := [alameda [100; 200; 5]%float] |}.

Definition top_sample : Wide.t :=
  {| Wide.columns := ["2000-01-31"; "2000-03-31"];
     Wide.rows := [alameda [1000; nan]%float] |}.


End Samples.

(** * Further vocabulary and samples *)

Module MoreProps.
Import PyStr PyText Table Fips Housing Names Props.

(** What is checked of the code of an integer FIPS cell: five digits, the
    digits read back as the integer, and the suffix "000" exactly for the
    multiples of 1000. *)
Definition int_code_ok (n : Z) : bool :=
  let code := normalize_fips (FipsInt n) in
  (is_fips5 code
   && (int_of_digits code =? n)%Z
   && Bool.eqb (endswith code "000") (n mod 1000 =? 0)%Z)%bool.

(** [f] holds of the [n] integers from [start] on. *)
Fixpoint all_below (f : Z -> bool) (start : Z) (n : nat) : bool :=
  match n with
  | O => true
  | S k => (f start && all_below f (start + 1) k)%bool
  end.

(** The economic row a county-level row gives for a year. *)
Definition economic_row (p : string * Economic.Source.row) (year : Z)
    : Economic.Annual.row :=
  {| Economic.Annual.fips_code := fst p;
     Economic.Annual.unemployment_rate :=
       Economic.Source.Unemployment_rate (snd p) year;
     Economic.Annual.year := year;
     Economic.Annual.median_household_income_2022 :=
       Economic.Source.Median_Household_Income_2022 (snd p) |}.

(** The year-data part of an economic row. *)
Definition without_income (r : Economic.Annual.row) : Economic.YearData.row :=
  {| Economic.YearData.fips_code := Economic.Annual.fips_code r;
     Economic.YearData.unemployment_rate := Economic.Annual.unemployment_rate r;
     Economic.YearData.year := Economic.Annual.year r |}.

(** The group key of a row of the annual table. *)
Definition annual_key (a : Annual.row) : group_key :=
  (Annual.RegionID a, (Annual.county_name a, Annual.year a)).

(** The row carries a county name. *)
Definition named (r : Monthly.row) : bool :=
  match Monthly.county_name r with
  | Some _ => true
  | None => false
  end.

(** The key and price columns of a row of the trend table. *)
Definition trend_annual (t : Trend.row) : Annual.row :=
  {| Annual.RegionID := Trend.RegionID t;
     Annual.county_name := Trend.county_name t;
     Annual.year := Trend.year t;
     Annual.bottom_tier_price := Trend.bottom_tier_price t;
     Annual.top_tier_price := Trend.top_tier_price t |}.

(** The joined row of a left row and a right row of its key. *)
Definition joined_with (l r : Melted.row) (j : Joined.row) : Prop :=
  same_key l r = true /\ j = join_pair l (Melted.price r).

(** The joined row has a price in one tier at least. *)
Definition joined_has_price (j : Joined.row) : bool :=
  negb (is_nan (Joined.bottom_tier_price j) && is_nan (Joined.top_tier_price j)).

(** The monthly row is the joined row with a date: the columns of the
    joined row are kept, the county name is the region name, and year and
    month are those of the date. *)
Definition built_from (j : Joined.row) (r : Monthly.row) : Prop :=
  Monthly.RegionID r = Joined.RegionID j
  /\ Monthly.RegionName r = Joined.RegionName j
  /\ Monthly.StateName r = Joined.StateName j
  /\ Monthly.State r = Joined.State j
  /\ Monthly.bottom_tier_price r = Joined.bottom_tier_price j
  /\ Monthly.top_tier_price r = Joined.top_tier_price j
  /\ Monthly.county_name r = Joined.RegionName j
  /\ Monthly.date r = (Monthly.year r, Monthly.month r, snd (Monthly.date r)).

(** The melted row has the region and the date text of the joined row. *)
Definition key_of_joined (j : Joined.row) (l : Melted.row) : bool :=
  ((Melted.RegionID l =? Joined.RegionID j)%Z
   && String.eqb (Melted.date l) (Joined.date j))%bool.

(** The reader returns one date for every text it is given. *)
Definition keeps_length (reader : list string -> option (list (Z * Z * Z)))
    : Prop :=
  forall col dates, reader col = Some dates -> length dates = length col.

End MoreProps.

Module MoreSamples.
Import PyStr PyText Table Fips Housing Names Props Samples MoreProps.

(** A sheet row with a rate in 2022 only. *)
Definition economic_source (code : Z) (area : string) (rate income : float)
    : Economic.Source.row :=
  {| Economic.Source.county := sheet_row code area;
     Economic.Source.Unemployment_rate :=
       fun y => if (y =? 2022)%Z then rate else nan;
     Economic.Source.Median_Household_Income_2022 := income |}.

(** The state of Alabama and two of its counties, one without income. *)
Definition economic_sheet : list Economic.Source.row :=
  [ economic_source 1000 "Alabama" 2.5 59609;
    economic_source 1001 "Autauga County, AL" 2.25 68315;
    economic_source 1003 "Baldwin County, AL" 2.5 nan ].




(** A population sheet: a state, a county (one year cell empty) and a
    parish; the second year label carries blanks. *)
Definition population_sheet : PopulationSheet.t :=
  {| PopulationSheet.columns := ["Geographic Area"; "Unnamed: 1"; "2020"; " 2021 "];
     PopulationSheet.rows :=
       [ [PopulationSheet.Text "Alabama"; PopulationSheet.Count 5024294;
          PopulationSheet.Count 5031864; PopulationSheet.Count 5050380];
         [PopulationSheet.Text ".Autauga County, Alabama"; PopulationSheet.Count 58805;
          PopulationSheet.Count 58915; PopulationSheet.Missing];
         [PopulationSheet.Text ".Acadia Parish, Louisiana"; PopulationSheet.Count 57576;
          PopulationSheet.Count 57674; PopulationSheet.Count 57263] ] |}.

(** The only row of its population table. *)
Definition autauga_2020 : PopulationSheet.Long.row :=
  {| PopulationSheet.Long.county_name := ".Autauga County, Alabama";
     PopulationSheet.Long.year := 2020;
     PopulationSheet.Long.population := PopulationSheet.Count 58915 |}.

(** January 2000 in the monthly table of [bottom_sample] and
    [top_sample]. *)
Definition january_2000 : Monthly.row :=
  {| Monthly.RegionID := 7;
     Monthly.RegionName := Some "Alameda County";
     Monthly.StateName := Some "CA";
     Monthly.State := Some "CA";
     Monthly.date := (2000, 1, 31)%Z;
     Monthly.bottom_tier_price := 100;
     Monthly.top_tier_price := 1000;
     Monthly.year := 2000;
     Monthly.month := 1;
     Monthly.county_name := Some "Alameda County" |}.

End MoreSamples.

(** * Verified properties *)

(** ** Binary64 facts used below *)

Module FloatFacts.
Import Props.
Open Scope float_scope.

Lemma SFeqb_refl (x : spec_float) : x <> S754_nan -> SFeqb x x = true.
Proof.
  intros Hx. destruct x as [s|s| |s m e]; unfold SFeqb; simpl; try congruence.
  - destruct s; reflexivity.
  - rewrite Z.compare_refl.
    assert (Hm : PosDef.Pos.compare_cont Eq m m = Eq)
      by apply Pos.compare_cont_refl.
    rewrite Hm. destruct s; reflexivity.
Qed.

(** There is one missing value. *)
Lemma is_nan_true (x : float) : is_nan x = true -> x = nan.
Proof.
  unfold is_nan. intros H. apply Prim2SF_inj.
  rewrite FloatAxioms.eqb_spec in H.
  destruct (Prim2SF x) eqn:E; try reflexivity;
    rewrite SFeqb_refl in H by congruence; discriminate.
Qed.

Lemma is_nan_false (x : float) : is_nan x = false -> Prim2SF x <> S754_nan.
Proof.
  unfold is_nan. rewrite FloatAxioms.eqb_spec. intros H E. rewrite E in H. discriminate.
Qed.

Lemma div_nan_r (x : float) : x / nan = nan.
Proof.
  apply Prim2SF_inj. rewrite FloatAxioms.div_spec.
  change (Prim2SF nan) with S754_nan.
  destruct (Prim2SF x); reflexivity.
Qed.

Lemma div_nan_l (x : float) : nan / x = nan.
Proof.
  apply Prim2SF_inj. rewrite FloatAxioms.div_spec.
  change (Prim2SF nan) with S754_nan. reflexivity.
Qed.

Lemma sub_nan_l (x : float) : nan - x = nan.
Proof.
  apply Prim2SF_inj. rewrite FloatAxioms.sub_spec.
  change (Prim2SF nan) with S754_nan. reflexivity.
Qed.

Lemma mul_nan_l (x : float) : nan * x = nan.
Proof.
  apply Prim2SF_inj. rewrite FloatAxioms.mul_spec.
  change (Prim2SF nan) with S754_nan. reflexivity.
Qed.

(** The two zeros are the numbers equal to [0]. *)
Lemma eqb_zero (x : float) :
  (x =? 0) = true -> exists s, Prim2SF x = S754_zero s.
Proof.
  rewrite FloatAxioms.eqb_spec. change (Prim2SF 0) with (S754_zero false).
  destruct (Prim2SF x) as [s|s| |s m e]; unfold SFeqb; simpl;
    try discriminate; eauto; destruct s; discriminate.
Qed.

Lemma eqb_zero_false (x : float) :
  (x =? 0) = false -> forall s, Prim2SF x <> S754_zero s.
Proof.
  rewrite FloatAxioms.eqb_spec. change (Prim2SF 0) with (S754_zero false).
  intros H s E. rewrite E in H. discriminate.
Qed.

Lemma growth_value_prev_nan (cur : float) : growth_value nan cur = nan.
Proof.
  unfold growth_value. now rewrite div_nan_r, sub_nan_l, mul_nan_l.
Qed.

Lemma growth_value_cur_nan (prev : float) : growth_value prev nan = nan.
Proof.
  unfold growth_value. now rewrite div_nan_l, sub_nan_l, mul_nan_l.
Qed.

Lemma Prim2SF_growth (prev cur : float) :
  Prim2SF (growth_value prev cur)
  = SF64mul (SF64sub (SF64div (Prim2SF cur) (Prim2SF prev)) (Prim2SF 1))
      (Prim2SF 100).
Proof. unfold growth_value. now rewrite FloatAxioms.mul_spec, FloatAxioms.sub_spec, FloatAxioms.div_spec. Qed.

(** Dividing a number that is not zero by zero: the growth is infinite. *)
Lemma growth_value_prev_zero (prev cur : float) :
  (prev =? 0) = true -> is_nan cur = false -> (cur =? 0) = false ->
  growth_value prev cur = infinity \/ growth_value prev cur = neg_infinity.
Proof.
  intros Hp Hn Hz.
  destruct (eqb_zero _ Hp) as [sp Ep].
  pose proof (is_nan_false _ Hn) as Hn'.
  pose proof (eqb_zero_false _ Hz) as Hz'.
  pose proof (Prim2SF_growth prev cur) as E. rewrite Ep in E.
  destruct (Prim2SF cur) as [s|s| |s m e] eqn:Ec.
  - exfalso. now apply (Hz' s).
  - destruct s, sp; [left|right|right|left]; apply Prim2SF_inj; now rewrite E.
  - congruence.
  - destruct s, sp; [left|right|right|left]; apply Prim2SF_inj; now rewrite E.
Qed.

(** Zero by zero: the growth is missing. *)
Lemma growth_value_zero_zero (prev cur : float) :
  (prev =? 0) = true -> (cur =? 0) = true -> growth_value prev cur = nan.
Proof.
  intros Hp Hc.
  destruct (eqb_zero _ Hp) as [sp Ep], (eqb_zero _ Hc) as [sc Ec].
  apply Prim2SF_inj. rewrite Prim2SF_growth, Ep, Ec. reflexivity.
Qed.

End FloatFacts.

(** ** Facts on the string primitives *)

Module StrFacts.
Import PyStr Props.

#[local] Arguments String.append !s1 s2 : simpl nomatch.

Lemma append_nil_r (s : string) : s ++ "" = s.
Proof. induction s as [|c s IH]; simpl; [reflexivity | now rewrite IH]. Qed.

Lemma append_assoc (s t u : string) : (s ++ t) ++ u = s ++ (t ++ u).
Proof. induction s as [|c s IH]; simpl; [reflexivity | now rewrite IH]. Qed.

Lemma rev_string_app (s t : string) :
  rev_string (s ++ t) = rev_string t ++ rev_string s.
Proof.
  induction s as [|c s IH]; simpl.
  - now rewrite append_nil_r.
  - now rewrite IH, append_assoc.
Qed.

Lemma rev_string_involutive (s : string) : rev_string (rev_string s) = s.
Proof.
  induction s as [|c s IH]; simpl; [reflexivity|].
  rewrite rev_string_app, IH. reflexivity.
Qed.

Lemma repeat_char_length c n : String.length (repeat_char c n) = n.
Proof. induction n as [|n IH]; simpl; [reflexivity | now rewrite IH]. Qed.

Lemma string_app_length (s t : string) :
  String.length (s ++ t) = (String.length s + String.length t)%nat.
Proof. induction s as [|c s IH]; simpl; [reflexivity | now rewrite IH]. Qed.

(** A string at least as long as the width is returned as it is. *)
Lemma zfill_long width s :
  (width <= String.length s)%nat -> zfill width s = s.
Proof.
  intros Hlen. unfold zfill.
  replace (width - String.length s)%nat with 0%nat by lia.
  destruct s as [|c rest]; simpl; [reflexivity|].
  destruct (is_sign c); reflexivity.
Qed.

(** Padding reaches the width. *)
Lemma zfill_length width s :
  (width <= String.length (zfill width s))%nat.
Proof.
  unfold zfill. destruct s as [|c rest]; simpl.
  - rewrite repeat_char_length. lia.
  - destruct (is_sign c); simpl;
      rewrite string_app_length, repeat_char_length; simpl; lia.
Qed.

(** *** Properties of a cleaned name *)

Section AllChars.
Variable p : ascii -> bool.

Lemma all_chars_app (s t : string) :
  all_chars p (s ++ t) = (all_chars p s && all_chars p t)%bool.
Proof.
  induction s as [|c s IH]; simpl; [reflexivity|].
  rewrite IH. now rewrite andb_assoc.
Qed.

Lemma all_chars_rev (s : string) :
  all_chars p (rev_string s) = all_chars p s.
Proof.
  induction s as [|c s IH]; simpl; [reflexivity|].
  rewrite all_chars_app, IH. simpl.
  rewrite andb_true_r. apply andb_comm.
Qed.

Lemma all_chars_lstrip (s : string) :
  all_chars p s = true -> all_chars p (lstrip s) = true.
Proof.
  induction s as [|c s IH]; simpl; [trivial|].
  intros H. apply andb_prop in H as [Hc Hs].
  destruct (is_space c); [auto|].
  simpl. now rewrite Hc, Hs.
Qed.

Lemma all_chars_strip (s : string) :
  all_chars p s = true -> all_chars p (strip s) = true.
Proof.
  intros H. unfold strip, rstrip.
  rewrite all_chars_rev. apply all_chars_lstrip.
  rewrite all_chars_rev. now apply all_chars_lstrip.
Qed.
End AllChars.

Lemma lower_char_not_upper (c : ascii) : is_upper (lower_char c) = false.
Proof. destruct c as [[] [] [] [] [] [] [] []]; reflexivity. Qed.

Lemma lower_char_period (c : ascii) :
  Ascii.eqb (lower_char c) "." = Ascii.eqb c ".".
Proof. destruct c as [[] [] [] [] [] [] [] []]; reflexivity. Qed.

Lemma lower_is_lowercase (s : string) : is_lowercase (lower s) = true.
Proof.
  induction s as [|c s IH]; simpl; [reflexivity|].
  unfold is_lowercase in *. simpl.
  now rewrite lower_char_not_upper, IH.
Qed.

Lemma lower_period_free (s : string) :
  period_free (lower s) = period_free s.
Proof.
  unfold period_free. induction s as [|c s IH]; simpl; [reflexivity|].
  now rewrite lower_char_period, IH.
Qed.

Lemma remove_char_period_free (s : string) :
  period_free (remove_char "." s) = true.
Proof.
  unfold period_free. induction s as [|c s IH]; simpl; [reflexivity|].
  destruct (Ascii.eqb c ".") eqn:E; [exact IH|].
  simpl. now rewrite E, IH.
Qed.

Lemma lstrip_no_leading_space (s : string) :
  starts_with_space (lstrip s) = false.
Proof.
  induction s as [|c s IH]; simpl; [reflexivity|].
  destruct (is_space c) eqn:E; [exact IH|]. simpl. exact E.
Qed.

(** Trimming in front of a string that ends in a visible character keeps
    that character. *)
Lemma lstrip_app_visible (u : string) (c : ascii) :
  is_space c = false ->
  exists w, lstrip (u ++ String c "") = w ++ String c "".
Proof.
  intros Hc. induction u as [|a u [w IH]]; simpl.
  - rewrite Hc. now exists "".
  - destruct (is_space a).
    + now exists w.
    + now exists (String a u).
Qed.

Lemma strip_stripped (s : string) : whitespace_stripped (strip s) = true.
Proof.
  unfold whitespace_stripped, strip, rstrip.
  rewrite rev_string_involutive, lstrip_no_leading_space.
  rewrite andb_true_r.
  pose proof (lstrip_no_leading_space s) as Hhead.
  destruct (lstrip s) as [|c t]; [reflexivity|].
  simpl in Hhead. simpl rev_string at 2.
  destruct (lstrip_app_visible (rev_string t) c Hhead) as [w ->].
  rewrite rev_string_app. simpl. now rewrite Hhead.
Qed.

End StrFacts.

(** ** Facts on the table helpers *)

Module TableFacts.
Import Table.

Section Sorting.
Context {A : Type} (leb : A -> A -> bool).

Lemma insert_sorted_In (x y : A) (l : list A) :
  In y (insert_sorted leb x l) <-> y = x \/ In y l.
Proof.
  induction l as [|z l IH]; simpl.
  - intuition.
  - destruct (leb x z); simpl; rewrite ?IH; intuition.
Qed.

(** Sorting neither adds nor loses a row. *)
Lemma sort_In (y : A) (l : list A) : In y (sort leb l) <-> In y l.
Proof.
  induction l as [|x l IH]; simpl; [reflexivity|].
  rewrite insert_sorted_In, IH. intuition.
Qed.

Lemma insert_sorted_length (x : A) (l : list A) :
  length (insert_sorted leb x l) = S (length l).
Proof.
  induction l as [|z l IH]; simpl; [reflexivity|].
  destruct (leb x z); simpl; [reflexivity | now rewrite IH].
Qed.

Lemma sort_length (l : list A) : length (sort leb l) = length l.
Proof.
  induction l as [|x l IH]; simpl; [reflexivity|].
  now rewrite insert_sorted_length, IH.
Qed.

Hypothesis leb_total : forall a b, leb a b = true \/ leb b a = true.
Hypothesis leb_trans :
  forall a b c, leb a b = true -> leb b c = true -> leb a c = true.

Lemma insert_sorted_sorted (x : A) (l : list A) :
  StronglySorted (fun a b => leb a b = true) l ->
  StronglySorted (fun a b => leb a b = true) (insert_sorted leb x l).
Proof.
  induction 1 as [|z l Hl IH Hz]; simpl.
  - repeat constructor.
  - destruct (leb x z) eqn:E.
    + constructor; [now constructor|].
      constructor; [exact E|].
      rewrite List.Forall_forall in *. intros y Hy. eauto.
    + constructor; [exact IH|].
      rewrite List.Forall_forall in *. intros y Hy.
      apply insert_sorted_In in Hy as [->|Hy]; [|auto].
      destruct (leb_total x z) as [H|H]; congruence.
Qed.

Lemma sort_sorted (l : list A) :
  StronglySorted (fun a b => leb a b = true) (sort leb l).
Proof.
  induction l as [|x l IH]; simpl; [constructor|].
  now apply insert_sorted_sorted.
Qed.
End Sorting.

(** A sorted list stays sorted when rows are filtered out. *)
Lemma StronglySorted_filter {A : Type} (R : A -> A -> Prop) (p : A -> bool)
    (l : list A) :
  StronglySorted R l -> StronglySorted R (List.filter p l).
Proof.
  induction 1 as [|x l Hl IH Hx]; simpl; [constructor|].
  destruct (p x); [|exact IH].
  constructor; [exact IH|].
  rewrite List.Forall_forall in *. intros y Hy.
  apply filter_In in Hy as [Hy _]. auto.
Qed.

(** The distinct elements are elements. *)
Lemma uniq_In {A : Type} (eqb : A -> A -> bool) (x : A) (l : list A) :
  In x (uniq eqb l) -> In x l.
Proof.
  induction l as [|y l IH]; simpl; [trivial|].
  destruct l as [|z l'].
  - trivial.
  - destruct (eqb y z).
    + intros H. right. now apply IH.
    + intros [->|H]; [now left | right; now apply IH].
Qed.

(** A column without observation has no mean. *)
Lemma mean_all_missing (xs : list float) :
  Forall (fun x => is_nan x = true) xs -> mean xs = nan.
Proof.
  intros H. unfold mean.
  replace (List.filter (fun x => negb (is_nan x)) xs) with (@nil float);
    [reflexivity|].
  induction H as [|x xs Hx _ IH]; simpl; [reflexivity|].
  now rewrite Hx.
Qed.

(** The sum is the compensated one: the mean of 0.1, 0.2 and 0.3 is
    0.19999999999999998, where adding the three values one after the other
    would give 0.20000000000000004. *)
Lemma mean_compensated :
  mean [0.1; 0.2; 0.3]%float = 0.19999999999999998%float
  /\ (fold_left PrimFloat.add [0.1; 0.2; 0.3] 0 / 3)%float
     = 0.20000000000000004%float.
Proof. split; vm_compute; reflexivity. Qed.

End TableFacts.

(** ** Results on the order of the group keys *)

Module OrderFacts.
Import Table Housing TableFacts.

Lemma string_ltb_lt (s t : string) :
  String.ltb s t = true <-> OrderedTypeEx.String_as_OT.lt s t.
Proof.
  rewrite <- OrderedTypeEx.String_as_OT.cmp_lt.
  unfold String.ltb, OrderedTypeEx.String_as_OT.cmp.
  destruct (String.compare s t); split; congruence.
Qed.

Lemma string_ltb_trans (s t u : string) :
  String.ltb s t = true -> String.ltb t u = true -> String.ltb s u = true.
Proof. rewrite !string_ltb_lt. apply OrderedTypeEx.String_as_OT.lt_trans. Qed.

Lemma string_ltb_irrefl (s : string) : String.ltb s s = false.
Proof.
  pose proof (proj2 (OrderedTypeEx.String_as_OT.cmp_eq s s) eq_refl) as E.
  unfold OrderedTypeEx.String_as_OT.cmp in E.
  unfold String.ltb. now rewrite E.
Qed.

Lemma string_ltb_tri (s t : string) :
  String.ltb s t = true \/ s = t \/ String.ltb t s = true.
Proof.
  unfold String.ltb.
  pose proof (OrderedTypeEx.String_as_OT.cmp_antisym t s) as Ha.
  unfold OrderedTypeEx.String_as_OT.cmp in Ha.
  destruct (String.compare s t) eqn:E.
  - right. left. now apply OrderedTypeEx.String_as_OT.cmp_eq.
  - now left.
  - right. right. now rewrite Ha.
Qed.

Section Lex.
Context {A B : Type} (ltA eqA : A -> A -> bool) (leB : B -> B -> bool).
Hypothesis eqA_eq : forall a b, eqA a b = true <-> a = b.
Hypothesis ltA_trans :
  forall a b c, ltA a b = true -> ltA b c = true -> ltA a c = true.
Hypothesis ltA_irrefl : forall a, ltA a a = false.
Hypothesis ltA_tri : forall a b, ltA a b = true \/ a = b \/ ltA b a = true.
Hypothesis leB_total : forall a b, leB a b = true \/ leB b a = true.
Hypothesis leB_trans :
  forall a b c, leB a b = true -> leB b c = true -> leB a c = true.
Hypothesis leB_antisym : forall a b, leB a b = true -> leB b a = true -> a = b.

Lemma lex_total (p q : A * B) :
  lex_leb ltA eqA leB p q = true \/ lex_leb ltA eqA leB q p = true.
Proof.
  unfold lex_leb. destruct (ltA_tri (fst p) (fst q)) as [H|[H|H]].
  - left. now rewrite H.
  - assert (E1 : eqA (fst p) (fst q) = true) by now apply eqA_eq.
    assert (E2 : eqA (fst q) (fst p) = true) by now apply eqA_eq.
    rewrite E1, E2.
    destruct (leB_total (snd p) (snd q)) as [L|L]; [left | right];
      rewrite L; apply orb_true_r.
  - right. now rewrite H.
Qed.

Lemma lex_trans (p q r : A * B) :
  lex_leb ltA eqA leB p q = true -> lex_leb ltA eqA leB q r = true ->
  lex_leb ltA eqA leB p r = true.
Proof.
  unfold lex_leb. intros H1 H2.
  apply orb_true_iff in H1, H2. apply orb_true_iff.
  destruct H1 as [H1|H1], H2 as [H2|H2].
  - left. eauto.
  - apply andb_true_iff in H2 as [E _]. apply eqA_eq in E.
    left. now rewrite <- E.
  - apply andb_true_iff in H1 as [E _]. apply eqA_eq in E.
    left. now rewrite E.
  - apply andb_true_iff in H1 as [E1 L1]. apply andb_true_iff in H2 as [E2 L2].
    apply eqA_eq in E1, E2. right. apply andb_true_iff. split.
    + apply eqA_eq. congruence.
    + eauto.
Qed.

Lemma lex_antisym (p q : A * B) :
  lex_leb ltA eqA leB p q = true -> lex_leb ltA eqA leB q p = true -> p = q.
Proof.
  unfold lex_leb. intros H1 H2.
  apply orb_true_iff in H1, H2.
  destruct H1 as [H1|H1], H2 as [H2|H2].
  - pose proof (ltA_trans _ _ _ H1 H2) as H. now rewrite ltA_irrefl in H.
  - apply andb_true_iff in H2 as [E _]. apply eqA_eq in E.
    rewrite E, ltA_irrefl in H1. discriminate.
  - apply andb_true_iff in H1 as [E _]. apply eqA_eq in E.
    rewrite E, ltA_irrefl in H2. discriminate.
  - apply andb_true_iff in H1 as [E1 L1]. apply andb_true_iff in H2 as [E2 L2].
    apply eqA_eq in E1. pose proof (leB_antisym _ _ L1 L2) as E.
    destruct p, q; simpl in *; congruence.
Qed.
End Lex.

Lemma Z_ltb_trans (a b c : Z) :
  (a <? b)%Z = true -> (b <? c)%Z = true -> (a <? c)%Z = true.
Proof. rewrite !Z.ltb_lt. lia. Qed.

Lemma Z_ltb_tri (a b : Z) : (a <? b)%Z = true \/ a = b \/ (b <? a)%Z = true.
Proof. rewrite !Z.ltb_lt. lia. Qed.

Lemma Z_leb_total (a b : Z) : (a <=? b)%Z = true \/ (b <=? a)%Z = true.
Proof. rewrite !Z.leb_le. lia. Qed.

Lemma Z_leb_trans (a b c : Z) :
  (a <=? b)%Z = true -> (b <=? c)%Z = true -> (a <=? c)%Z = true.
Proof. rewrite !Z.leb_le. lia. Qed.

Lemma Z_leb_antisym (a b : Z) :
  (a <=? b)%Z = true -> (b <=? a)%Z = true -> a = b.
Proof. rewrite !Z.leb_le. lia. Qed.

(** The order of the group keys is a total order. *)
Lemma key_leb_total (a b : group_key) :
  key_leb a b = true \/ key_leb b a = true.
Proof.
  apply lex_total.
  - apply Z.eqb_eq.
  - apply Z_ltb_tri.
  - apply lex_total; [apply String.eqb_eq | apply string_ltb_tri | apply Z_leb_total].
Qed.

Lemma key_leb_trans (a b c : group_key) :
  key_leb a b = true -> key_leb b c = true -> key_leb a c = true.
Proof.
  apply lex_trans.
  - apply Z.eqb_eq.
  - apply Z_ltb_trans.
  - apply lex_trans;
      [apply String.eqb_eq | apply string_ltb_trans | apply Z_leb_trans].
Qed.

Lemma key_leb_antisym (a b : group_key) :
  key_leb a b = true -> key_leb b a = true -> a = b.
Proof.
  apply lex_antisym.
  - apply Z.eqb_eq.
  - apply Z_ltb_trans.
  - apply Z.ltb_irrefl.
  - apply lex_antisym;
      [apply String.eqb_eq | apply string_ltb_trans | apply string_ltb_irrefl
      | apply Z_leb_antisym].
Qed.

Lemma key_eqb_eq (a b : group_key) : key_eqb a b = true <-> a = b.
Proof.
  destruct a as [ra [na ya]], b as [rb [nb yb]]. unfold key_eqb. simpl.
  rewrite !andb_true_iff, !Z.eqb_eq, String.eqb_eq. split.
  - intros [[-> ->] ->]. reflexivity.
  - intros E. inversion E. auto.
Qed.

Section Uniq.
Context {A : Type} (leb eqb : A -> A -> bool).
Hypothesis eqb_eq : forall a b, eqb a b = true <-> a = b.
Hypothesis leb_antisym : forall a b, leb a b = true -> leb b a = true -> a = b.

Lemma uniq_cons (x y : A) (l : list A) :
  uniq eqb (x :: y :: l)
  = if eqb x y then uniq eqb (y :: l) else x :: uniq eqb (y :: l).
Proof. reflexivity. Qed.

(** Dropping the repetitions loses no element. *)
Lemma uniq_In_iff (x : A) (l : list A) : In x (uniq eqb l) <-> In x l.
Proof.
  split; [apply uniq_In|].
  induction l as [|y l IH]; [trivial|].
  destruct l as [|z l]; [trivial|].
  rewrite uniq_cons. intros [->|H].
  - destruct (eqb x z) eqn:E.
    + apply eqb_eq in E. subst z. apply IH. now left.
    + now left.
  - destruct (eqb y z); [|right]; now apply IH.
Qed.

Lemma uniq_sorted (R : A -> A -> Prop) (l : list A) :
  StronglySorted R l -> StronglySorted R (uniq eqb l).
Proof.
  induction 1 as [|x l Hl IH Hx]; [constructor|].
  destruct l as [|y l]; [repeat constructor|].
  rewrite uniq_cons. destruct (eqb x y); [exact IH|].
  constructor; [exact IH|].
  rewrite List.Forall_forall in *. intros z Hz. apply Hx. now apply uniq_In in Hz.
Qed.

(** In a sorted list, dropping the neighbours that repeat leaves each
    element once. *)
Lemma uniq_NoDup (l : list A) :
  StronglySorted (fun a b => leb a b = true) l -> List.NoDup (uniq eqb l).
Proof.
  induction 1 as [|x l Hl IH Hx]; [constructor|].
  destruct l as [|y l]; [repeat constructor; intros []|].
  rewrite uniq_cons. destruct (eqb x y) eqn:E; [exact IH|].
  constructor; [|exact IH].
  intros Hin. apply uniq_In in Hin.
  assert (Exy : x = y).
  { rewrite List.Forall_forall in Hx.
    apply leb_antisym; [apply Hx; now left|].
    destruct Hin as [->|Hin].
    - apply Hx. now left.
    - inversion Hl as [|? ? _ Hy]; subst.
      rewrite List.Forall_forall in Hy. now apply Hy. }
  apply eqb_eq in Exy. congruence.
Qed.
End Uniq.

End OrderFacts.

(** ** Results on FIPS codes *)

Module FipsFacts.
Import PyStr Fips Props Samples StrFacts.

(** Normalising any cell a second time changes nothing. *)
Lemma normalize_fips_twice r :
  normalize_fips (FipsStr (normalize_fips r)) = normalize_fips r.
Proof.
  unfold normalize_fips at 1. simpl. apply zfill_long, zfill_length.
Qed.

(** The repair of [check_and_fix_fips_codes] leaves the codes of a counties
    table as they are. *)
Lemma check_and_fix_on_counties (df : list source_row) :
  check_and_fix_fips_codes
    (List.map (fun c => FipsStr (fips_code c)) (clean_unemployment_data df))
  = List.map fips_code (clean_unemployment_data df).
Proof.
  unfold check_and_fix_fips_codes. rewrite List.map_map.
  apply List.map_ext_in. intros c Hc.
  unfold clean_unemployment_data in Hc.
  apply in_map_iff in Hc as [p [<- Hp]].
  apply filter_In in Hp as [Hp _].
  apply list_elem_of_In, list_elem_of_omap in Hp as (r & _ & Hr).
  unfold with_fips in Hr. destruct (FIPS_Code r) as [raw|]; [|discriminate].
  inversion Hr; subst. simpl. apply normalize_fips_twice.
Qed.

(** C1: the inputs "6001", 6001 and "06001" all normalise to "06001"; every
    5-digit string is a fixed point of [normalize_fips]; and normalising the
    result of a normalisation changes nothing. *)
Theorem normalize_fips_06001_idempotent :
  normalize_fips (FipsStr "6001") = "06001" /\
  normalize_fips (FipsInt 6001) = "06001" /\
  normalize_fips (FipsStr "06001") = "06001" /\
  (forall s, is_fips5 s = true -> normalize_fips (FipsStr s) = s) /\
  (forall r, normalize_fips (FipsStr (normalize_fips r)) = normalize_fips r).
Proof.
  repeat split; try reflexivity.
  - intros s Hs. unfold is_fips5 in Hs.
    apply andb_prop in Hs as [Hlen _].
    apply Nat.eqb_eq in Hlen.
    unfold normalize_fips. simpl. apply zfill_long. lia.
  - apply normalize_fips_twice.
Qed.

Lemma normalize_fips_06001_idempotent_witness :
  is_fips5 "48201" = true /\ normalize_fips (FipsStr "48201") = "48201".
Proof.
  split; [reflexivity|].
  apply (proj1 (proj2 (proj2 (proj2 normalize_fips_06001_idempotent))) "48201").
  reflexivity.
Defined.

(** C10: no row of the counties table has a code ending in "000". *)
Theorem counties_no_000_suffix (df : list source_row) (c : county) :
  In c (clean_unemployment_data df) -> endswith (fips_code c) "000" = false.
Proof.
  unfold clean_unemployment_data. intros Hin.
  apply in_map_iff in Hin as [p [<- Hp]].
  apply filter_In in Hp as [_ Hp].
  unfold is_county_level in Hp. simpl.
  now apply negb_true_iff in Hp.
Qed.

(** The state row is filtered out, the county row stays. *)
Example sample_sheet_counties : clean_unemployment_data sample_sheet = [autauga].
Proof. reflexivity. Qed.

Lemma counties_no_000_suffix_witness :
  In autauga (clean_unemployment_data sample_sheet)
  /\ endswith (fips_code autauga) "000" = false.
Proof.
  assert (Hin : In autauga (clean_unemployment_data sample_sheet))
    by (vm_compute; left; reflexivity).
  split; [exact Hin|].
  exact (counties_no_000_suffix sample_sheet autauga Hin).
Defined.

End FipsFacts.
(** ** Results on name matching *)

Module NamesFacts.
Import PyStr Table Names Props Samples StrFacts.

(** *** Cleaned names *)

Lemma strip_lower_shape (s : string) :
  is_lowercase (strip (lower s)) = true
  /\ whitespace_stripped (strip (lower s)) = true.
Proof.
  split.
  - apply all_chars_strip, lower_is_lowercase.
  - apply strip_stripped.
Qed.

(** C9 (amended): the county table and the housing tables clean a name by
    lower-casing and trimming it, periods stay; the population table removes
    the periods first, then lower-cases and trims, and its cleaned names are
    lower-case, trimmed and free of periods.  A missing name stays
    missing. *)
Theorem cleaned_names_shape (s : string) :
  (clean_county_name (Some s) = Some (strip (lower s))
   /\ is_lowercase (strip (lower s)) = true
   /\ whitespace_stripped (strip (lower s)) = true)
  /\ (clean_population_county_name (Some s)
      = Some (strip (lower (remove_char "." s)))
      /\ is_lowercase (strip (lower (remove_char "." s))) = true
      /\ whitespace_stripped (strip (lower (remove_char "." s))) = true
      /\ period_free (strip (lower (remove_char "." s))) = true)
  /\ clean_county_name None = None
  /\ clean_population_county_name None = None.
Proof.
  repeat split; try apply strip_lower_shape.
  apply all_chars_strip. fold (period_free (lower (remove_char "." s))).
  rewrite lower_period_free. apply remove_char_period_free.
Qed.

(** C9, as stated, fails on the county-table and housing paths: the period
    of "St. Clair County" survives the cleaning. *)
Lemma clean_county_name_keeps_period :
  clean_county_name (Some "St. Clair County") = Some "st. clair county"
  /\ period_free "st. clair county" = false
  /\ clean_population_county_name (Some "St. Clair County")
     = Some "st clair county".
Proof. repeat split; reflexivity. Qed.

(** *** The dictionary *)

Section DictFacts.
Context {K V : Type} `{EqDecision K}.
Implicit Types (d : list (K * V)) (k : K) (v : V).

Lemma dict_get_set k k' v d :
  dict_get k (dict_set k' v d)
  = if decide (k = k') then Some v else dict_get k d.
Proof.
  induction d as [|[k0 v0] d IH]; simpl.
  - destruct (decide (k = k')); reflexivity.
  - destruct (decide (k' = k0)) as [->|Hne]; simpl.
    + destruct (decide (k = k0)); reflexivity.
    + destruct (decide (k = k0)) as [->|Hk].
      * destruct (decide (k0 = k')); congruence.
      * exact IH.
Qed.

Lemma dict_set_keys k k' v d :
  In k (List.map fst (dict_set k' v d)) <-> k = k' \/ In k (List.map fst d).
Proof.
  induction d as [|[k0 v0] d IH]; simpl.
  - intuition.
  - destruct (decide (k' = k0)) as [->|Hne]; simpl.
    + intuition.
    + rewrite IH. intuition.
Qed.

Lemma dict_set_NoDup k v d :
  List.NoDup (List.map fst d) -> List.NoDup (List.map fst (dict_set k v d)).
Proof.
  induction d as [|[k0 v0] d IH]; simpl; intros Hd.
  - constructor; [intros []|constructor].
  - inversion Hd as [|? ? Hnotin Hd']; subst.
    destruct (decide (k = k0)) as [->|Hne]; simpl.
    + now constructor.
    + constructor; [|auto].
      rewrite dict_set_keys. intros [->|Hin]; [congruence | contradiction].
Qed.

Lemma find_app (p : K * V -> bool) (l1 l2 : list (K * V)) :
  List.find p (l1 ++ l2)
  = match List.find p l1 with
    | Some x => Some x
    | None => List.find p l2
    end.
Proof.
  induction l1 as [|x l1 IH]; simpl; [reflexivity|].
  destruct (p x); [reflexivity | exact IH].
Qed.

(** A key is looked up at its last pair. *)
Lemma fold_set_get k (pairs d : list (K * V)) :
  dict_get k (fold_left dict_step pairs d)
  = match List.find (fun kv => bool_decide (fst kv = k)) (rev pairs) with
    | Some kv => Some (snd kv)
    | None => dict_get k d
    end.
Proof.
  revert d. induction pairs as [|[k0 v0] pairs IH]; intros d; simpl.
  - reflexivity.
  - rewrite IH, find_app. simpl.
    destruct (List.find _ (rev pairs)); [reflexivity|].
    unfold dict_step. simpl. rewrite dict_get_set.
    destruct (decide (k = k0)) as [->|Hne].
    + now rewrite bool_decide_eq_true_2.
    + rewrite bool_decide_eq_false_2 by congruence. reflexivity.
Qed.

Lemma fold_set_keys k (pairs d : list (K * V)) :
  In k (List.map fst (fold_left dict_step pairs d))
  <-> In k (List.map fst d) \/ In k (List.map fst pairs).
Proof.
  revert d. induction pairs as [|[k0 v0] pairs IH]; intros d; simpl.
  - intuition.
  - rewrite IH. unfold dict_step. simpl. rewrite dict_set_keys. intuition.
Qed.

Lemma fold_set_NoDup (pairs d : list (K * V)) :
  List.NoDup (List.map fst d) ->
  List.NoDup (List.map fst (fold_left dict_step pairs d)).
Proof.
  revert d. induction pairs as [|[k0 v0] pairs IH]; intros d Hd; simpl.
  - exact Hd.
  - apply IH. now apply dict_set_NoDup.
Qed.

(** The dictionary is as long as the list of pairs exactly when no key
    comes twice. *)
Lemma dict_of_pairs_length (pairs : list (K * V)) :
  (length (dict_of_pairs pairs) <= length pairs)%nat
  /\ (length (dict_of_pairs pairs) = length pairs
      <-> List.NoDup (List.map fst pairs)).
Proof.
  unfold dict_of_pairs.
  set (d := fold_left dict_step pairs []).
  assert (Hnd : List.NoDup (List.map fst d))
    by (apply fold_set_NoDup; constructor).
  assert (Hin : forall k, In k (List.map fst d) <-> In k (List.map fst pairs)).
  { intros k. unfold d. rewrite fold_set_keys. simpl. intuition. }
  assert (Hle : (length d <= length pairs)%nat).
  { rewrite <- (length_map fst d), <- (length_map fst pairs).
    apply NoDup_incl_length; [exact Hnd|]. intros k. apply Hin. }
  split; [exact Hle|]. split.
  - intros Heq. apply (NoDup_incl_NoDup Hnd).
    + rewrite !length_map. lia.
    + intros k. apply Hin.
  - intros Hp.
    assert (length pairs <= length d)%nat; [|lia].
    rewrite <- (length_map fst d), <- (length_map fst pairs).
    apply NoDup_incl_length; [exact Hp|]. intros k. apply Hin.
Qed.
End DictFacts.

(** *** The name-to-FIPS mapping *)

Lemma combine_map {A B C : Type} (f : A -> B) (g : A -> C) (l : list A) :
  combine (List.map f l) (List.map g l) = List.map (fun x => (f x, g x)) l.
Proof. induction l as [|x l IH]; simpl; [reflexivity | now rewrite IH]. Qed.

Lemma find_map {A B : Type} (f : A -> B) (p : B -> bool) (l : list A) :
  List.find p (List.map f l) = option_map f (List.find (fun x => p (f x)) l).
Proof.
  induction l as [|x l IH]; simpl; [reflexivity|].
  destruct (p (f x)); [reflexivity | exact IH].
Qed.

(** C5 (amended): the mapping is built without a collision check.  It is
    always returned; a cleaned name is mapped to the code of the last county
    record that carries it; and the printed size of the mapping is the
    number of county records exactly when no two records share a cleaned
    name, smaller otherwise. *)
Theorem mapping_last_record_wins (counties_df : list Fips.county) (k : name_key) :
  let result := create_county_name_to_fips_mapping counties_df in
  dict_get k (fips_mapping result)
    = option_map Fips.fips_code (last_county k counties_df)
  /\ printed_size result = length (fips_mapping result)
  /\ (printed_size result <= length counties_df)%nat
  /\ (printed_size result = length counties_df
      <-> List.NoDup (List.map cleaned_key counties_df)).
Proof.
  simpl. rewrite (combine_map cleaned_key Fips.fips_code).
  set (pairs := List.map (fun c => (cleaned_key c, Fips.fips_code c)) counties_df).
  assert (Hlen : length pairs = length counties_df) by apply length_map.
  assert (Hkeys : List.map fst pairs = List.map cleaned_key counties_df).
  { unfold pairs. rewrite List.map_map. reflexivity. }
  pose proof (dict_of_pairs_length pairs) as [Hle Hiff].
  rewrite Hlen, Hkeys in *.
  repeat split; try tauto.
  unfold dict_of_pairs.
  rewrite fold_set_get. simpl.
  unfold last_county, pairs. rewrite <- List.map_rev, find_map. simpl.
  destruct (List.find _ (rev counties_df)); reflexivity.
Qed.

(** C5, as stated, fails: two counties with distinct codes and one cleaned
    name give a mapping, a printed size and printed samples that are those
    of the second county alone; the name of the first county is looked up
    at the code of the second. *)
Lemma mapping_collision_unnoticed :
  let both := create_county_name_to_fips_mapping [washington_al; washington_ar] in
  let second := create_county_name_to_fips_mapping [washington_ar] in
  cleaned_key washington_al = cleaned_key washington_ar
  /\ Fips.fips_code washington_al <> Fips.fips_code washington_ar
  /\ fips_mapping both = [(Some "washington county", "05143")]
  /\ fips_mapping both = fips_mapping second
  /\ printed_size both = printed_size second
  /\ printed_samples both = printed_samples second
  /\ dict_get (cleaned_key washington_al) (fips_mapping both) = Some "05143".
Proof. repeat split; try reflexivity. discriminate. Qed.

(** *** Attaching the codes *)

Section AttachFacts.
Context {R : Type} (county_name : R -> option string)
        (clean : option string -> name_key).

Lemma map_fips_rows (mapping : fips_dict) (df : list R) :
  List.map fst (map_fips county_name clean mapping df) = df.
Proof.
  unfold map_fips. rewrite List.map_map. simpl. apply List.map_id.
Qed.

Lemma map_fips_code (mapping : fips_dict) (df : list R) r (code : option string) :
  In (r, code) (map_fips county_name clean mapping df) ->
  In r df /\ code = dict_get (clean (county_name r)) mapping.
Proof.
  unfold map_fips. intros H.
  apply in_map_iff in H as [r' [E Hr']]. now inversion E; subst.
Qed.

Lemma report_of_total (df : list (R * option string)) :
  total_count (report_of df) = length df.
Proof. reflexivity. Qed.
End AttachFacts.

Lemma rate_90_of_120 (r : match_report) :
  mapped_count r = 90%nat -> total_count r = 120%nat ->
  match_rate r = 0.75%float /\ (match_rate r * 100 = 75)%float.
Proof. unfold match_rate. intros -> ->. split; reflexivity. Qed.

(** C2: attaching the codes keeps every row, in order and with its columns;
    a row gets the code its cleaned name is mapped to, and no code when the
    name is no key of the mapping; the message reports the number of rows
    with a code, the number of rows and, as a percentage, their ratio; 90
    rows with a code out of 120 make a ratio of exactly 0.75 (75 percent). *)
Theorem add_fips_keeps_rows_and_reports_rate
    (mapping : fips_dict) (population : list Population.row)
    (affordability : list Housing.Affordability.row)
    (trends : list Housing.Trend.row) :
  let p := add_fips_to_population_data mapping population in
  let h := add_fips_to_housing_data mapping affordability trends in
  (List.map fst (population_df p) = population
   /\ List.map fst (affordability_df h) = affordability
   /\ List.map fst (trends_df h) = trends)
  /\ (forall r code, In (r, code) (population_df p) ->
        code = dict_get
                 (clean_population_county_name (Population.county_name r))
                 mapping)
  /\ (forall r code, In (r, code) (affordability_df h) ->
        code = dict_get
                 (clean_county_name (Some (Housing.Affordability.county_name r)))
                 mapping)
  /\ (forall r code, In (r, code) (trends_df h) ->
        code = dict_get
                 (clean_county_name (Some (Housing.Trend.county_name r)))
                 mapping)
  /\ (mapped_count (population_report p) = matched (population_df p)
      /\ total_count (population_report p) = length population
      /\ success_percent (population_report p)
         = (match_rate (population_report p) * 100)%float)
  /\ (mapped_count (housing_report h) = matched (affordability_df h)
      /\ total_count (housing_report h) = length affordability
      /\ success_percent (housing_report h)
         = (match_rate (housing_report h) * 100)%float)
  /\ (mapped_count (population_report p) = 90%nat ->
      total_count (population_report p) = 120%nat ->
      match_rate (population_report p) = 0.75%float
      /\ (match_rate (population_report p) * 100 = 75)%float)
  /\ (mapped_count (housing_report h) = 90%nat ->
      total_count (housing_report h) = 120%nat ->
      match_rate (housing_report h) = 0.75%float
      /\ (match_rate (housing_report h) * 100 = 75)%float).
Proof.
  intros p h.
  repeat split; try (intros; now apply rate_90_of_120); subst p h; simpl;
    try apply map_fips_rows;
    try (intros r code H; now apply map_fips_code in H);
    unfold map_fips; now rewrite length_map.
Qed.

Lemma add_fips_keeps_rows_and_reports_rate_witness :
  length sample_mapping = 100%nat
  /\ match_rate (population_report
                   (add_fips_to_population_data sample_mapping sample_population))
     = 0.75%float.
Proof.
  split; [vm_compute; reflexivity|].
  refine (proj1 (proj1 (proj2 (proj2 (proj2 (proj2 (proj2 (proj2
            (add_fips_keeps_rows_and_reports_rate
               sample_mapping sample_population [] []))))))) _ _));
    vm_compute; reflexivity.
Defined.

End NamesFacts.

(** ** Results on year-over-year growth *)

Module GrowthFacts.
Import Table Housing Props Samples FloatFacts TableFacts.

(** *** One series *)

Lemma zip_shift_ratio (xs : list float) (prev : float) :
  zip_with (fun a b => (a / b - 1)%float) xs (prev :: removelast xs)
  = ratio_from prev xs.
Proof.
  revert prev. induction xs as [|x xs IH]; intros prev; [reflexivity|].
  destruct xs as [|y xs]; [reflexivity|].
  change (removelast (x :: y :: xs)) with (x :: removelast (y :: xs)).
  change (ratio_from prev (x :: y :: xs))
    with ((x / prev - 1)%float :: ratio_from x (y :: xs)).
  rewrite <- IH. reflexivity.
Qed.

Lemma pct_change_ratio (fm : fill_method) (xs : list float) :
  pct_change fm xs = ratio_from nan (fill fm xs).
Proof.
  unfold pct_change, shift.
  destruct (fill fm xs) as [|x l] eqn:E; [reflexivity|].
  apply zip_shift_ratio.
Qed.

Lemma ratio_from_length (xs : list float) (prev : float) :
  length (ratio_from prev xs) = length xs.
Proof.
  revert prev. induction xs as [|x xs IH]; intros prev; simpl;
    [reflexivity | now rewrite IH].
Qed.

Lemma ratio_from_next (xs : list float) (prev : float) (i : nat) :
  (S i < length xs)%nat ->
  nth (S i) (ratio_from prev xs) nan
  = (nth (S i) xs nan / nth i xs nan - 1)%float.
Proof.
  revert prev i. induction xs as [|x xs IH]; intros prev i Hi; simpl in Hi;
    [lia|].
  destruct xs as [|y xs]; simpl in Hi; [lia|].
  destruct i as [|i]; [reflexivity|].
  change (nth (S (S i)) (ratio_from prev (x :: y :: xs)) nan)
    with (nth (S i) (ratio_from x (y :: xs)) nan).
  rewrite IH by (simpl; lia). reflexivity.
Qed.

Lemma ffill_from_length (xs : list float) (last : float) :
  length (ffill_from last xs) = length xs.
Proof.
  revert last. induction xs as [|x xs IH]; intros last; simpl;
    [reflexivity | now rewrite IH].
Qed.

Lemma fill_length (fm : fill_method) (xs : list float) :
  length (fill fm xs) = length xs.
Proof. destruct fm; [apply ffill_from_length | reflexivity]. Qed.

Lemma pct_change_length (fm : fill_method) (xs : list float) :
  length (pct_change fm xs) = length xs.
Proof. now rewrite pct_change_ratio, ratio_from_length, fill_length. Qed.

(** The first value has no growth. *)
Lemma growth_of_series_first (fm : fill_method) (xs : list float) :
  nth 0 (growth_of_series fm xs) nan = nan.
Proof.
  unfold growth_of_series. rewrite pct_change_ratio.
  destruct (fill fm xs) as [|x l]; [reflexivity|]. simpl.
  now rewrite div_nan_r, sub_nan_l, mul_nan_l.
Qed.

(** Every later value is compared with the value before it. *)
Lemma growth_of_series_next (fm : fill_method) (xs : list float) (i : nat) :
  (S i < length xs)%nat ->
  nth (S i) (growth_of_series fm xs) nan
  = growth_value (nth i (fill fm xs) nan) (nth (S i) (fill fm xs) nan).
Proof.
  intros Hi. unfold growth_of_series, growth_value.
  rewrite <- mul_nan_l with (x := 100%float) at 1.
  rewrite (List.map_nth (fun g => (g * 100)%float)).
  rewrite pct_change_ratio, ratio_from_next; [reflexivity|].
  now rewrite fill_length.
Qed.

(** *** Series by group *)

Lemma nth_skipn_cons (l : list float) (n : nat) :
  (n < length l)%nat -> nth n l nan :: skipn (S n) l = skipn n l.
Proof.
  revert n. induction l as [|x l IH]; intros n Hn; simpl in Hn; [lia|].
  destruct n as [|n]; [reflexivity|].
  simpl. apply IH. lia.
Qed.

Section Transform.
Variable f : list float -> list float.
Hypothesis f_length : forall xs, length (f xs) = length xs.

Lemma transform_from_length all seen rest :
  length (transform_from f all seen rest) = length rest.
Proof.
  revert seen. induction rest as [|[k v] rest IH]; intros seen; simpl;
    [reflexivity | now rewrite IH].
Qed.

Lemma transform_from_series (k : Z) all seen rest :
  (count_occ Z.eq_dec seen k + length (series_of k rest))%nat
  = length (series_of k all) ->
  List.map snd
    (List.filter (fun p => has_key k (fst p))
       (combine rest (transform_from f all seen rest)))
  = skipn (count_occ Z.eq_dec seen k) (f (series_of k all)).
Proof.
  revert seen. induction rest as [|[k' v] rest IH]; intros seen Hlen.
  - simpl in *. rewrite skipn_all2; [reflexivity|].
    rewrite f_length. lia.
  - simpl. unfold has_key at 1. simpl.
    destruct (Z.eqb_spec k' k) as [->|Hne].
    + simpl. rewrite IH.
      * simpl. destruct (Z.eq_dec k k) as [_|]; [|congruence].
        fold (series_of k all). apply nth_skipn_cons.
        rewrite f_length.
        unfold series_of in Hlen at 1. simpl in Hlen.
        unfold has_key in Hlen at 1. simpl in Hlen.
        rewrite Z.eqb_refl in Hlen. simpl in Hlen. lia.
      * simpl. destruct (Z.eq_dec k k) as [_|]; [|congruence].
        unfold series_of in Hlen at 1. simpl in Hlen.
        unfold has_key in Hlen at 1. simpl in Hlen.
        rewrite Z.eqb_refl in Hlen. simpl in Hlen.
        unfold series_of at 1. lia.
    + rewrite IH.
      * simpl. destruct (Z.eq_dec k' k); [congruence | reflexivity].
      * simpl. destruct (Z.eq_dec k' k); [congruence|].
        unfold series_of in Hlen at 1. simpl in Hlen.
        unfold has_key in Hlen at 1. simpl in Hlen.
        destruct (Z.eqb_spec k' k); [congruence|]. exact Hlen.
Qed.

(** The transformed column, read along the rows of one key, is the
    transformation of that key's series. *)
Lemma groupby_transform_series (k : Z) (col : list (Z * float)) :
  List.map snd
    (List.filter (fun p => has_key k (fst p))
       (combine col (groupby_transform f col)))
  = f (series_of k col).
Proof.
  unfold groupby_transform. rewrite transform_from_series; reflexivity.
Qed.
End Transform.

(** *** The trend table *)

Lemma growth_column_length fm price rows :
  length (growth_column fm price rows) = length rows.
Proof.
  unfold growth_column, groupby_transform.
  now rewrite !length_map, transform_from_length, length_map.
Qed.

(** Reading one column of the zipped table along the rows of a region. *)
Lemma zip_region (rid : Z) (t : tier) (rows : list Annual.row)
    (gb gt : list float) :
  length gb = length rows -> length gt = length rows ->
  let trends := zip_with trend_of rows (combine gb gt) in
  List.map (price_of t) (region_rows rid trends)
    = series_of rid (List.map (fun a => (Annual.RegionID a, annual_price t a)) rows)
  /\ List.map (growth_of t) (region_rows rid trends)
    = List.map snd
        (List.filter (fun p => has_key rid (fst p))
           (combine
              (List.map (fun a => (Annual.RegionID a, annual_price t a)) rows)
              (match t with Bottom => gb | Top => gt end)))
  /\ List.map (fun r => (Trend.RegionID r, Trend.year r)) trends
    = List.map (fun a => (Annual.RegionID a, Annual.year a)) rows.
Proof.
  revert gb gt.
  destruct t; (induction rows as [|a rows IH]; intros gb gt Hb Ht;
    [ destruct gb, gt; simpl in *; try lia; repeat split; reflexivity
    | destruct gb as [|b gb], gt as [|g gt]; simpl in Hb, Ht; try lia;
      destruct (IH gb gt) as (IHp & IHg & IHk); [lia | lia |];
      unfold region_rows, series_of, has_key in *; simpl in *;
      destruct (Z.eqb_spec (Annual.RegionID a) rid) as [E|E]; simpl;
      rewrite IHp, IHg, IHk; repeat split; reflexivity ]).
Qed.

Lemma lex_leb_total (a b : Z * Z) :
  lex_leb Z.ltb Z.eqb Z.leb a b = true \/ lex_leb Z.ltb Z.eqb Z.leb b a = true.
Proof.
  unfold lex_leb.
  destruct (Z.ltb_spec (fst a) (fst b)), (Z.ltb_spec (fst b) (fst a)),
    (Z.eqb_spec (fst a) (fst b)), (Z.eqb_spec (fst b) (fst a)),
    (Z.leb_spec (snd a) (snd b)), (Z.leb_spec (snd b) (snd a));
    simpl; auto; lia.
Qed.

Lemma lex_leb_trans (a b c : Z * Z) :
  lex_leb Z.ltb Z.eqb Z.leb a b = true ->
  lex_leb Z.ltb Z.eqb Z.leb b c = true ->
  lex_leb Z.ltb Z.eqb Z.leb a c = true.
Proof.
  unfold lex_leb.
  destruct (Z.ltb_spec (fst a) (fst b)), (Z.ltb_spec (fst b) (fst c)),
    (Z.ltb_spec (fst a) (fst c)),
    (Z.eqb_spec (fst a) (fst b)), (Z.eqb_spec (fst b) (fst c)),
    (Z.eqb_spec (fst a) (fst c)),
    (Z.leb_spec (snd a) (snd b)), (Z.leb_spec (snd b) (snd c)),
    (Z.leb_spec (snd a) (snd c));
    simpl; auto; try lia; discriminate.
Qed.

Lemma StronglySorted_map {A B : Type} (R : B -> B -> Prop) (f : A -> B)
    (l : list A) :
  StronglySorted R (List.map f l) -> StronglySorted (fun a b => R (f a) (f b)) l.
Proof.
  induction l as [|x l IH]; simpl; intros H; [constructor|].
  inversion H as [|? ? Hl Hx]; subst.
  constructor; [auto|].
  rewrite List.Forall_forall in *. intros y Hy. apply Hx.
  now apply in_map.
Qed.

Lemma StronglySorted_map_inv {A B : Type} (R : B -> B -> Prop) (f : A -> B)
    (l : list A) :
  StronglySorted (fun a b => R (f a) (f b)) l -> StronglySorted R (List.map f l).
Proof.
  induction 1 as [|x l Hl IH Hx]; simpl; constructor; [exact IH|].
  rewrite List.Forall_forall in *. intros y Hy.
  apply in_map_iff in Hy as [z [<- Hz]]. auto.
Qed.

(** Within one region, the table order is the order of the years. *)
Lemma region_sorted_by_year (rid : Z) (trends : list Trend.row) :
  StronglySorted (fun a b => trend_leb a b = true) trends ->
  StronglySorted (fun a b => (Trend.year a <= Trend.year b)%Z)
    (region_rows rid trends).
Proof.
  induction 1 as [|x l Hl IH Hx]; simpl; [constructor|].
  destruct (Z.eqb_spec (Trend.RegionID x) rid) as [E|E]; [|exact IH].
  constructor; [exact IH|].
  rewrite List.Forall_forall in *. intros y Hy.
  apply filter_In in Hy as [Hy Hrid].
  apply Z.eqb_eq in Hrid.
  specialize (Hx y Hy). unfold trend_leb, lex_leb in Hx. simpl in Hx.
  rewrite E, Hrid, Z.ltb_irrefl, Z.eqb_refl in Hx. simpl in Hx.
  now apply Z.leb_le.
Qed.

(** The trend table: sorted by region and year, and its growth columns are,
    region by region, the growth of the region's price series. *)
Lemma trends_by_region (fm : fill_method) (housing_df : list Monthly.row)
    (rid : Z) (t : tier) :
  let region := region_rows rid (create_annual_price_trends fm housing_df) in
  List.map (growth_of t) region
    = growth_of_series fm (List.map (price_of t) region)
  /\ StronglySorted (fun a b => (Trend.year a <= Trend.year b)%Z) region.
Proof.
  unfold create_annual_price_trends.
  set (rows := sort annual_leb (annual_means housing_df)).
  set (gb := growth_column fm Annual.bottom_tier_price rows).
  set (gt := growth_column fm Annual.top_tier_price rows).
  destruct (zip_region rid t rows gb gt) as (Hp & Hg & Hk);
    try apply growth_column_length.
  simpl. split.
  - rewrite Hp, Hg. unfold growth_of_series.
    rewrite <- (groupby_transform_series (pct_change fm) (pct_change_length fm)).
    destruct t; unfold gb, gt, growth_column; simpl annual_price;
      set (col := List.map _ rows);
      set (res := groupby_transform (pct_change fm) col);
      clearbody res; clear;
      revert res; induction col as [|[k v] col IH]; intros [|r res];
        simpl; try reflexivity;
        destruct (has_key rid (k, v)); simpl; now rewrite IH.
  - apply region_sorted_by_year.
    apply (StronglySorted_map (fun a b => lex_leb Z.ltb Z.eqb Z.leb a b = true)
             (fun r => (Trend.RegionID r, Trend.year r))).
    rewrite Hk.
    apply (StronglySorted_map_inv
             (fun a b => lex_leb Z.ltb Z.eqb Z.leb a b = true)
             (fun a => (Annual.RegionID a, Annual.year a))).
    apply (sort_sorted annual_leb).
    + intros a b. apply lex_leb_total.
    + intros a b c. apply lex_leb_trans.
Qed.

(** C6 (amended): the rows of a region come in ascending year order; the
    growth of the region's first row is missing; the growth of every later
    row is [(current / previous - 1) * 100], computed in binary64 on the
    prices of the row and of the row before it (after the forward fill,
    where the release applies one). *)
Theorem growth_by_region_in_year_order (fm : fill_method)
    (housing_df : list Monthly.row) (rid : Z) (t : tier) :
  let region := region_rows rid (create_annual_price_trends fm housing_df) in
  let prices := fill fm (List.map (price_of t) region) in
  StronglySorted (fun a b => (Trend.year a <= Trend.year b)%Z) region
  /\ nth 0 (List.map (growth_of t) region) nan = nan
  /\ forall i, (S i < length region)%nat ->
       nth (S i) (List.map (growth_of t) region) nan
       = growth_value (nth i prices nan) (nth (S i) prices nan).
Proof.
  intros region prices.
  destruct (trends_by_region fm housing_df rid t) as [Hg Hs].
  fold region in Hg, Hs.
  split; [exact Hs|]. rewrite Hg. split.
  - apply growth_of_series_first.
  - intros i Hi. apply growth_of_series_next. now rewrite length_map.
Qed.

Lemma growth_by_region_in_year_order_witness :
  let region := region_rows 1 (create_annual_price_trends Ffill three_years) in
  let prices := fill Ffill (List.map (price_of Bottom) region) in
  (1 < length region)%nat
  /\ nth 1 (List.map (growth_of Bottom) region) nan
     = growth_value (nth 0 prices nan) (nth 1 prices nan).
Proof.
  split; [vm_compute; lia|].
  apply (proj2 (proj2 (growth_by_region_in_year_order Ffill three_years 1 Bottom)) 0%nat).
  vm_compute. lia.
Defined.

(** C6, as stated, fails on its example: for annual means 100, 110 and 99
    the growth column is not [null, 10.0, -10.0]; the quotient form of the
    formula gives 10.000000000000009 and -9.9999999999999982, whatever the
    fill, while the difference form of the claim would give 10 and -10.  The
    two values are within 1e-14 of 10 and -10. *)
Lemma growth_100_110_99_inexact :
  List.map Trend.bottom_tier_price (create_annual_price_trends Ffill three_years)
    = [100; 110; 99]%float
  /\ List.map Trend.year (create_annual_price_trends Ffill three_years)
    = [2000; 2001; 2002]%Z
  /\ List.map Trend.bottom_tier_growth (create_annual_price_trends Ffill three_years)
    = [nan; 10.000000000000009; -9.9999999999999982]%float
  /\ List.map Trend.bottom_tier_growth (create_annual_price_trends NoFill three_years)
    = [nan; 10.000000000000009; -9.9999999999999982]%float
  /\ (10.000000000000009 =? 10)%float = false
  /\ (-9.9999999999999982 =? -10)%float = false
  /\ ((110 - 100) / 100 * 100 =? 10)%float = true
  /\ ((99 - 110) / 110 * 100 =? -10)%float = true
  /\ (abs (10.000000000000009 - 10) <? 1e-14)%float = true
  /\ (abs (-9.9999999999999982 - -10) <? 1e-14)%float = true.
Proof. repeat split; vm_compute; reflexivity. Qed.

(** C3 (amended): the previous price is not guarded.  For a row of a region
    after its first, with the price of the row before it as previous price
    (after the forward fill, where the release applies one): a missing
    previous price gives a missing growth; a previous price of 0 gives an
    infinite growth when the current price is a number other than 0, and a
    missing growth when the current price is 0 or missing.  The computation
    is total: no error is raised. *)
Theorem growth_after_missing_or_zero_price (fm : fill_method)
    (housing_df : list Monthly.row) (rid : Z) (t : tier) (i : nat) :
  let region := region_rows rid (create_annual_price_trends fm housing_df) in
  let prices := fill fm (List.map (price_of t) region) in
  let prev := nth i prices nan in
  let cur := nth (S i) prices nan in
  let g := nth (S i) (List.map (growth_of t) region) nan in
  (S i < length region)%nat ->
  (is_nan prev = true -> g = nan)
  /\ ((prev =? 0)%float = true -> is_nan cur = false -> (cur =? 0)%float = false ->
      g = infinity \/ g = neg_infinity)
  /\ ((prev =? 0)%float = true -> (cur =? 0)%float = true -> g = nan)
  /\ (is_nan cur = true -> g = nan).
Proof.
  intros region prices prev cur g Hi.
  assert (Hg : g = growth_value prev cur).
  { unfold g. destruct (trends_by_region fm housing_df rid t) as [Hg _].
    fold region in Hg. rewrite Hg.
    apply growth_of_series_next. now rewrite length_map. }
  rewrite Hg. repeat split.
  - intros H. apply is_nan_true in H. rewrite H. apply growth_value_prev_nan.
  - apply growth_value_prev_zero.
  - apply growth_value_zero_zero.
  - intros H. apply is_nan_true in H. rewrite H. apply growth_value_cur_nan.
Qed.

Lemma growth_after_missing_or_zero_price_witness :
  let region := region_rows 1 (create_annual_price_trends NoFill zero_then_100) in
  let g := nth 1 (List.map (growth_of Bottom) region) nan in
  g = infinity \/ g = neg_infinity.
Proof.
  apply (growth_after_missing_or_zero_price NoFill zero_then_100 1 Bottom 0);
    vm_compute; first [lia | reflexivity].
Defined.

(** C3, as stated, fails: with a price of 0 in 2000 and of 100 in 2001 the
    growth of 2001 is infinite, not missing, whatever the fill. *)
Lemma growth_after_zero_price_is_infinite :
  List.map Trend.bottom_tier_price (create_annual_price_trends Ffill zero_then_100)
    = [0; 100]%float
  /\ List.map Trend.bottom_tier_growth (create_annual_price_trends Ffill zero_then_100)
    = [nan; infinity]
  /\ List.map Trend.bottom_tier_growth (create_annual_price_trends NoFill zero_then_100)
    = [nan; infinity]
  /\ is_nan infinity = false.
Proof. repeat split; vm_compute; reflexivity. Qed.

End GrowthFacts.

(** ** Results on affordability *)

Module AffordabilityFacts.
Import Table Housing Props Samples FloatFacts TableFacts OrderFacts.

Lemma group_keys_from_rows (housing_df : list Monthly.row) (k : group_key) :
  In k (group_keys housing_df) ->
  exists m, In m housing_df /\ key_of m = Some k.
Proof.
  unfold group_keys. intros H.
  apply uniq_In, sort_In in H.
  apply list_elem_of_In, list_elem_of_omap in H as (m & Hm & Hk).
  exists m. split; [now apply list_elem_of_In | exact Hk].
Qed.

(** Every row of the affordability table is made from one group key. *)
Lemma affordability_row_inv (housing_df : list Monthly.row)
    (r : Affordability.row) :
  In r (calculate_affordability_metrics housing_df) ->
  exists k, In k (group_keys housing_df)
            /\ r = affordability_of (aggregate housing_df k).
Proof.
  unfold calculate_affordability_metrics, annual_means. intros H.
  apply in_map_iff in H as (a & <- & Ha).
  apply in_map_iff in Ha as (k & <- & Hk).
  now exists k.
Qed.



Lemma salary_of_missing : min_salary (annual_cost nan) = nan.
Proof. reflexivity. Qed.

Lemma salary_of_zero : min_salary (annual_cost 0) = 0%float.
Proof. reflexivity. Qed.






(** C4 (amended): in every row of the affordability table a missing annual
    mean price (in particular the mean of a group whose monthly prices are
    all missing) gives a missing [min_salary]; an annual mean price of 0
    gives a [min_salary] of 0.0, which is not missing. *)
Theorem min_salary_of_missing_or_zero_price (housing_df : list Monthly.row)
    (r : Affordability.row) :
  In r (calculate_affordability_metrics housing_df) ->
  (is_nan (Affordability.bottom_tier_price r) = true ->
   Affordability.bottom_tier_min_salary r = nan)
  /\ (is_nan (Affordability.top_tier_price r) = true ->
      Affordability.top_tier_min_salary r = nan)
  /\ (Forall (fun m => is_nan (Monthly.bottom_tier_price m) = true)
        (members_of housing_df r) ->
      Affordability.bottom_tier_min_salary r = nan)
  /\ (Forall (fun m => is_nan (Monthly.top_tier_price m) = true)
        (members_of housing_df r) ->
      Affordability.top_tier_min_salary r = nan)
  /\ (Affordability.bottom_tier_price r = 0%float ->
      Affordability.bottom_tier_min_salary r = 0%float)
  /\ (Affordability.top_tier_price r = 0%float ->
      Affordability.top_tier_min_salary r = 0%float)
  /\ is_nan 0 = false.
Proof.
  intros H. apply affordability_row_inv in H as (k & Hk & ->).
  destruct k as [rid [name y]]. unfold members_of, row_key. simpl.
  repeat split.
  - intros E. apply is_nan_true in E. rewrite E. apply salary_of_missing.
  - intros E. apply is_nan_true in E. rewrite E. apply salary_of_missing.
  - intros E. rewrite mean_all_missing; [apply salary_of_missing|].
    apply List.Forall_forall. intros x Hx.
    apply in_map_iff in Hx as (m & <- & Hm).
    rewrite Forall_forall in E. apply E. now apply list_elem_of_In.
  - intros E. rewrite mean_all_missing; [apply salary_of_missing|].
    apply List.Forall_forall. intros x Hx.
    apply in_map_iff in Hx as (m & <- & Hm).
    rewrite Forall_forall in E. apply E. now apply list_elem_of_In.
  - intros ->. apply salary_of_zero.
  - intros ->. apply salary_of_zero.
Qed.

Lemma min_salary_of_missing_or_zero_price_witness :
  In zero_year_row (calculate_affordability_metrics zero_year)
  /\ Affordability.top_tier_min_salary zero_year_row = nan
  /\ Affordability.bottom_tier_min_salary zero_year_row = 0%float.
Proof.
  assert (Hin : In zero_year_row (calculate_affordability_metrics zero_year))
    by (vm_compute; left; reflexivity).
  destruct (min_salary_of_missing_or_zero_price zero_year zero_year_row Hin)
    as (_ & Htop & _ & _ & Hzero & _).
  split; [exact Hin|]. split.
  - apply Htop. vm_compute. reflexivity.
  - apply Hzero. vm_compute. reflexivity.
Defined.

(** C4, as stated, fails: an annual mean price of 0 gives a [min_salary] of
    0.0, not a missing one. *)
Lemma zero_price_gives_zero_salary :
  List.map Affordability.bottom_tier_price (calculate_affordability_metrics zero_year)
    = [0%float]
  /\ List.map Affordability.bottom_tier_min_salary
       (calculate_affordability_metrics zero_year)
    = [0%float]
  /\ is_nan 0 = false.
Proof. repeat split; vm_compute; reflexivity. Qed.

End AffordabilityFacts.

(** ** Results on the outer join of the two price tiers *)

Module ReshapeFacts.
Import PyStr Table Housing Props Samples FloatFacts TableFacts.










End ReshapeFacts.

(** ** Further results on FIPS codes and the economic table *)

Module EconomicFacts.
Import PyStr PyText Table Fips Props Samples MoreProps MoreSamples.
Import FloatFacts StrFacts.

Lemma all_below_spec (f : Z -> bool) (n : nat) (start x : Z) :
  all_below f start n = true ->
  (start <= x < start + Z.of_nat n)%Z -> f x = true.
Proof.
  revert start. induction n as [|n IH]; intros start H Hx; [lia|].
  simpl in H. apply andb_prop in H as [Hs Hrest].
  destruct (Z.eq_dec x start) as [->|Hne]; [exact Hs|].
  apply (IH (start + 1)%Z Hrest). lia.
Qed.

(** Every integer from 0 to 99999 passes the check. *)
Lemma int_codes_checked : all_below int_code_ok 0 (Nat.pow 10 5) = true.
Proof. vm_compute. reflexivity. Qed.

Lemma int_code_ok_range (n : Z) :
  (0 <= n < 100000)%Z -> int_code_ok n = true.
Proof.
  intros Hn. apply (all_below_spec _ _ _ _ int_codes_checked).
  rewrite Nat2Z.inj_pow. simpl. lia.
Qed.

Lemma int_code_ok_facts (n : Z) :
  (0 <= n < 100000)%Z ->
  is_fips5 (normalize_fips (FipsInt n)) = true
  /\ int_of_digits (normalize_fips (FipsInt n)) = n
  /\ endswith (normalize_fips (FipsInt n)) "000" = (n mod 1000 =? 0)%Z.
Proof.
  intros Hn. pose proof (int_code_ok_range n Hn) as H.
  unfold int_code_ok in H.
  apply andb_prop in H as [H Hend]. apply andb_prop in H as [Hfive Hint].
  repeat split; [exact Hfive | now apply Z.eqb_eq | now apply eqb_prop].
Qed.

(** X1: the code of an integer cell from 0 to 99999 is a 5-digit string
    whose digits read back as the integer, so distinct integers get
    distinct codes. *)
Theorem int_code_five_digits_injective (n m : Z) :
  (0 <= n < 100000)%Z -> (0 <= m < 100000)%Z ->
  is_fips5 (normalize_fips (FipsInt n)) = true
  /\ int_of_digits (normalize_fips (FipsInt n)) = n
  /\ (normalize_fips (FipsInt n) = normalize_fips (FipsInt m) -> n = m).
Proof.
  intros Hn Hm.
  destruct (int_code_ok_facts n Hn) as (Hfive & Hint & _).
  destruct (int_code_ok_facts m Hm) as (_ & Hint' & _).
  repeat split; [exact Hfive | exact Hint |].
  intros E. rewrite <- Hint, <- Hint'. now rewrite E.
Qed.

Lemma int_code_five_digits_injective_witness :
  is_fips5 (normalize_fips (FipsInt 6001)) = true
  /\ int_of_digits (normalize_fips (FipsInt 6001)) = 6001%Z.
Proof.
  destruct (int_code_five_digits_injective 6001 48201) as (H1 & H2 & _);
    [lia | lia |].
  split; [exact H1 | exact H2].
Defined.






(** *** Codes read back from the file *)

Lemma fips5_chars (s : string) :
  is_fips5 s = true ->
  exists c1 c2 c3 c4 c5,
    s = String c1 (String c2 (String c3 (String c4 (String c5 ""))))
    /\ is_digit c1 = true /\ is_digit c2 = true /\ is_digit c3 = true
    /\ is_digit c4 = true /\ is_digit c5 = true.
Proof.
  unfold is_fips5. intros H. apply andb_prop in H as [Hlen Hall].
  apply Nat.eqb_eq in Hlen.
  destruct s as [|c1 [|c2 [|c3 [|c4 [|c5 [|c6 s]]]]]]; simpl in Hlen; try lia.
  simpl in Hall.
  repeat (apply andb_prop in Hall as [? Hall]).
  exists c1, c2, c3, c4, c5. repeat split; assumption.
Qed.

Lemma digit_val_digit (c : ascii) :
  is_digit c = true ->
  exists d, Housing.digit_val c = Some d /\ (0 <= d <= 9)%Z
            /\ nat_of_ascii c = Z.to_nat (d + 48).
Proof.
  intros H. unfold Housing.digit_val. rewrite H.
  unfold is_digit in H. apply andb_prop in H as [Hlo Hhi].
  apply Nat.leb_le in Hlo, Hhi.
  exists (Z.of_nat (nat_of_ascii c) - 48)%Z. repeat split; lia.
Qed.

(** Two 5-digit strings with the same value are the same string. *)
Lemma int_of_fips5_injective (s t : string) :
  is_fips5 s = true -> is_fips5 t = true ->
  int_of_digits s = int_of_digits t -> s = t.
Proof.
  intros Hs Ht.
  destruct (fips5_chars s Hs) as (a1 & a2 & a3 & a4 & a5 & -> & A1 & A2 & A3 & A4 & A5).
  destruct (fips5_chars t Ht) as (b1 & b2 & b3 & b4 & b5 & -> & B1 & B2 & B3 & B4 & B5).
  destruct (digit_val_digit a1 A1) as (x1 & X1 & Hx1 & N1).
  destruct (digit_val_digit a2 A2) as (x2 & X2 & Hx2 & N2).
  destruct (digit_val_digit a3 A3) as (x3 & X3 & Hx3 & N3).
  destruct (digit_val_digit a4 A4) as (x4 & X4 & Hx4 & N4).
  destruct (digit_val_digit a5 A5) as (x5 & X5 & Hx5 & N5).
  destruct (digit_val_digit b1 B1) as (y1 & Y1 & Hy1 & M1).
  destruct (digit_val_digit b2 B2) as (y2 & Y2 & Hy2 & M2).
  destruct (digit_val_digit b3 B3) as (y3 & Y3 & Hy3 & M3).
  destruct (digit_val_digit b4 B4) as (y4 & Y4 & Hy4 & M4).
  destruct (digit_val_digit b5 B5) as (y5 & Y5 & Hy5 & M5).
  unfold int_of_digits. simpl.
  rewrite X1, X2, X3, X4, X5, Y1, Y2, Y3, Y4, Y5. intros E.
  assert (x1 = y1 /\ x2 = y2 /\ x3 = y3 /\ x4 = y4 /\ x5 = y5)
    as (-> & -> & -> & -> & ->) by lia.
  rewrite <- (ascii_nat_embedding a1), <- (ascii_nat_embedding b1), N1, M1.
  rewrite <- (ascii_nat_embedding a2), <- (ascii_nat_embedding b2), N2, M2.
  rewrite <- (ascii_nat_embedding a3), <- (ascii_nat_embedding b3), N3, M3.
  rewrite <- (ascii_nat_embedding a4), <- (ascii_nat_embedding b4), N4, M4.
  rewrite <- (ascii_nat_embedding a5), <- (ascii_nat_embedding b5), N5, M5.
  reflexivity.
Qed.

Lemma int_of_fips5_range (s : string) :
  is_fips5 s = true -> (0 <= int_of_digits s < 100000)%Z.
Proof.
  intros Hs.
  destruct (fips5_chars s Hs) as (a1 & a2 & a3 & a4 & a5 & -> & A1 & A2 & A3 & A4 & A5).
  destruct (digit_val_digit a1 A1) as (x1 & X1 & Hx1 & _).
  destruct (digit_val_digit a2 A2) as (x2 & X2 & Hx2 & _).
  destruct (digit_val_digit a3 A3) as (x3 & X3 & Hx3 & _).
  destruct (digit_val_digit a4 A4) as (x4 & X4 & Hx4 & _).
  destruct (digit_val_digit a5 A5) as (x5 & X5 & Hx5 & _).
  unfold int_of_digits. simpl. rewrite X1, X2, X3, X4, X5. lia.
Qed.

(** Reading a 5-digit code as an integer and normalising it gives the code
    back. *)
Lemma fips5_read_back (s : string) :
  is_fips5 s = true -> normalize_fips (FipsInt (int_of_digits s)) = s.
Proof.
  intros Hs. pose proof (int_of_fips5_range s Hs) as Hn.
  destruct (int_code_ok_facts _ Hn) as (Hfive & Hint & _).
  apply int_of_fips5_injective; assumption.
Qed.

Lemma fips5_isdigit (s : string) : is_fips5 s = true -> isdigit s = true.
Proof.
  intros Hs. destruct (fips5_chars s Hs) as (a1 & a2 & a3 & a4 & a5 & -> & A1 & A2 & A3 & A4 & A5).
  simpl. now rewrite A1, A2, A3, A4, A5.
Qed.

(** X3: a column of 5-digit codes written to the file, read back as
    integers (the leading zeros lost) and repaired by
    [check_and_fix_fips_codes] is the column that was written. *)
Theorem reread_and_fix_restores (codes : list string) :
  forallb is_fips5 codes = true ->
  CountiesCsv.reread_and_fix codes = Some codes.
Proof.
  intros H. rewrite forallb_forall in H.
  unfold CountiesCsv.reread_and_fix, CountiesCsv.read_fips_column.
  replace (forallb isdigit codes) with true.
  - f_equal. unfold check_and_fix_fips_codes. rewrite List.map_map.
    rewrite <- (List.map_id codes) at 2.
    apply List.map_ext_in. intros s Hs. apply fips5_read_back. now apply H.
  - symmetry. apply forallb_forall. intros s Hs. apply fips5_isdigit. now apply H.
Qed.

Lemma reread_and_fix_restores_witness :
  CountiesCsv.read_fips_column ["01001"; "06001"]
    = Some [FipsInt 1001; FipsInt 6001]
  /\ CountiesCsv.reread_and_fix ["01001"; "06001"] = Some ["01001"; "06001"].
Proof.
  split; [reflexivity|].
  apply (reread_and_fix_restores ["01001"; "06001"]). reflexivity.
Defined.


(** *** The economic table *)

Lemma years_range (y : Z) : In y Economic.years <-> (2000 <= y <= 2023)%Z.
Proof.
  unfold Economic.years. rewrite in_map_iff. split.
  - intros (i & <- & Hi). apply in_seq in Hi. lia.
  - intros Hy. exists (Z.to_nat (y - 2000)). split; [lia|].
    apply in_seq. lia.
Qed.

Lemma omap_cons {A B : Type} (f : A -> option B) (x : A) (l : list A) :
  omap f (x :: l)
  = match f x with Some y => y :: omap f l | None => omap f l end.
Proof. reflexivity. Qed.

(** The county-level rows are the rows the counties table is made of. *)
Lemma county_rows_counties (df : list Economic.Source.row)
    (p : string * Economic.Source.row) :
  In p (Economic.county_rows df) ->
  In (to_county (fst p, Economic.Source.county (snd p)))
     (Fips.clean_unemployment_data (List.map Economic.Source.county df))
  /\ endswith (fst p) "000" = false.
Proof.
  unfold Economic.county_rows, Fips.clean_unemployment_data. intros H.
  apply filter_In in H as [H Hend].
  apply negb_true_iff in Hend. split; [|exact Hend].
  apply in_map_iff. exists (fst p, Economic.Source.county (snd p)).
  split; [reflexivity|]. apply filter_In. split.
  - apply list_elem_of_In, list_elem_of_omap in H as (r & Hr & Hp).
    apply list_elem_of_In, list_elem_of_omap.
    exists (Economic.Source.county r). split.
    + apply list_elem_of_In, in_map, list_elem_of_In, Hr.
    + unfold Economic.with_fips in Hp. unfold Fips.with_fips.
      destruct (FIPS_Code (Economic.Source.county r)); [|discriminate].
      inversion Hp; subst. reflexivity.
  - unfold is_county_level. simpl. now rewrite Hend.
Qed.

Lemma year_data_inv rows y (l : Economic.YearData.row) :
  In l (Economic.year_data rows y) ->
  exists p, In p rows
    /\ is_nan (Economic.Source.Unemployment_rate (snd p) y) = false
    /\ l = without_income (economic_row p y).
Proof.
  unfold Economic.year_data. intros H.
  apply list_elem_of_In, list_elem_of_omap in H as (p & Hp & E).
  exists p. split; [now apply list_elem_of_In|].
  destruct (is_nan (Economic.Source.Unemployment_rate (snd p) y)) eqn:En;
    [discriminate|].
  inversion E; subst. split; reflexivity.
Qed.

Lemma join_income_inv right l (r : Economic.Annual.row) :
  In r (Economic.join_income right l) -> without_income r = l.
Proof.
  unfold Economic.join_income.
  destruct (List.filter _ right) as [|m ms].
  - intros [<-|[]]. now destruct l.
  - intros H. apply in_map_iff in H as (x & <- & _). now destruct l.
Qed.

Lemma join_income_nonempty right l :
  exists r, In r (Economic.join_income right l).
Proof.
  unfold Economic.join_income.
  destruct (List.filter _ right) as [|m ms]; eexists; left; reflexivity.
Qed.

(** X4: every row of the economic table has a year from 2000 to 2023 and an
    unemployment rate that is not missing, and its code is the code of a row
    of the counties table made from the same sheet, so it does not end in
    "000". *)
Theorem economic_rows_invariant (df : list Economic.Source.row)
    (r : Economic.Annual.row) :
  In r (snd (Economic.clean_unemployment_data df)) ->
  (2000 <= Economic.Annual.year r <= 2023)%Z
  /\ is_nan (Economic.Annual.unemployment_rate r) = false
  /\ endswith (Economic.Annual.fips_code r) "000" = false
  /\ exists c, In c (fst (Economic.clean_unemployment_data df))
               /\ fips_code c = Economic.Annual.fips_code r.
Proof.
  simpl. unfold Economic.merge_income, Economic.economic_data. intros H.
  apply in_flat_map in H as (l & Hl & Hr).
  apply join_income_inv in Hr.
  apply in_flat_map in Hl as (y & Hy & Hl).
  apply year_data_inv in Hl as (p & Hp & Hrate & El).
  apply years_range in Hy.
  apply county_rows_counties in Hp as [Hc Hend].
  rewrite <- Hr in El. unfold without_income, economic_row in El. simpl in El.
  inversion El as [[Ecode Erate Eyear]].
  rewrite Ecode, Erate, Eyear. repeat split; try assumption; try lia.
  eexists. split; [exact Hc | reflexivity].
Qed.

Lemma economic_rows_invariant_witness :
  In (economic_row ("01001", economic_source 1001 "Autauga County, AL" 2.25 68315) 2022)
     (snd (Economic.clean_unemployment_data economic_sheet))
  /\ endswith "01001" "000" = false.
Proof.
  assert (Hin : In (economic_row ("01001", economic_source 1001 "Autauga County, AL" 2.25 68315) 2022)
                   (snd (Economic.clean_unemployment_data economic_sheet)))
    by (vm_compute; left; reflexivity).
  split; [exact Hin|].
  exact (proj1 (proj2 (proj2 (economic_rows_invariant _ _ Hin)))).
Defined.

(** X5: the income merge loses no row: every (county row, year) with a rate
    is in the economic table, with the code, the rate and the year it had
    before the merge, and the table is at least as long as the table
    before the merge. *)
Theorem income_merge_keeps_rows (df : list Economic.Source.row) :
  let before := Economic.economic_data (Economic.county_rows df) in
  let after := snd (Economic.clean_unemployment_data df) in
  (forall l, In l before -> exists r, In r after /\ without_income r = l)
  /\ (forall r, In r after -> In (without_income r) before)
  /\ (length before <= length after)%nat.
Proof.
  simpl. unfold Economic.merge_income.
  set (right := Economic.income_data (Economic.county_rows df)).
  generalize (Economic.economic_data (Economic.county_rows df)) as left.
  intros left. repeat split.
  - intros l Hl. destruct (join_income_nonempty right l) as [r Hr].
    exists r. split; [|now apply join_income_inv in Hr].
    apply in_flat_map. now exists l.
  - intros r Hr. apply in_flat_map in Hr as (l & Hl & Hr).
    apply join_income_inv in Hr. now rewrite Hr.
  - induction left as [|l left IH]; simpl; [lia|].
    rewrite length_app.
    destruct (join_income_nonempty right l) as [r Hr].
    destruct (Economic.join_income right l); [contradiction | simpl; lia].
Qed.

(** The income rows of one code, when the codes of the county-level rows
    are distinct. *)
Lemma income_of_code rows (p : string * Economic.Source.row) :
  List.NoDup (List.map fst rows) -> In p rows ->
  List.filter (fun r => String.eqb (fst r) (fst p)) (Economic.income_data rows)
  = if is_nan (Economic.Source.Median_Household_Income_2022 (snd p))
    then []
    else [(fst p, Economic.Source.Median_Household_Income_2022 (snd p))].
Proof.
  unfold Economic.income_data.
  induction rows as [|q rows IH]; intros Hnd Hp; [contradiction|].
  simpl in Hnd. inversion Hnd as [|? ? Hq Hnd']; subst.
  assert (Hother : forall rest,
             (forall x, In x rest -> In x rows) ->
             List.filter (fun r => String.eqb (fst r) (fst q))
               (omap (fun p0 =>
                        if is_nan (Economic.Source.Median_Household_Income_2022 (snd p0))
                        then None
                        else Some (fst p0, Economic.Source.Median_Household_Income_2022 (snd p0)))
                     rest) = []).
  { induction rest as [|x rest IHr]; intros Hsub; [reflexivity|].
    rewrite omap_cons.
    destruct (is_nan (Economic.Source.Median_Household_Income_2022 (snd x))).
    - apply IHr. intros z Hz. apply Hsub. now right.
    - simpl. destruct (String.eqb_spec (fst x) (fst q)) as [E|E].
      + exfalso. apply Hq. rewrite <- E. apply in_map, Hsub. now left.
      + apply IHr. intros z Hz. apply Hsub. now right. }
  rewrite omap_cons. destruct Hp as [->|Hp].
  - destruct (is_nan (Economic.Source.Median_Household_Income_2022 (snd p))).
    + now apply Hother.
    + simpl. rewrite String.eqb_refl. f_equal. now apply Hother.
  - assert (Hne : fst q <> fst p).
    { intros E. apply Hq. rewrite E. now apply in_map. }
    destruct (is_nan (Economic.Source.Median_Household_Income_2022 (snd q))).
    + now apply IH.
    + simpl. destruct (String.eqb_spec (fst q) (fst p)); [contradiction|].
      now apply IH.
Qed.

Lemma flat_map_flat_map {A B C : Type} (f : A -> list B) (g : B -> list C)
    (l : list A) :
  flat_map g (flat_map f l) = flat_map (fun x => flat_map g (f x)) l.
Proof.
  induction l as [|x l IH]; simpl; [reflexivity|].
  now rewrite flat_map_app, IH.
Qed.

(** X6: when the codes of the county-level rows are distinct, the economic
    table is, year by year from 2000 to 2023, one row for every
    county-level row with a rate of that year, carrying the income cell of
    that row (missing or not) on every year. *)
Theorem income_on_every_year (df : list Economic.Source.row) :
  List.NoDup (List.map fst (Economic.county_rows df)) ->
  snd (Economic.clean_unemployment_data df)
  = flat_map
      (fun y =>
         omap (fun p =>
                 if is_nan (Economic.Source.Unemployment_rate (snd p) y)
                 then None else Some (economic_row p y))
              (Economic.county_rows df))
      Economic.years.
Proof.
  intros Hnd. unfold Economic.clean_unemployment_data. cbn [snd].
  unfold Economic.merge_income, Economic.economic_data.
  rewrite flat_map_flat_map. apply flat_map_ext. intros y.
  unfold Economic.year_data.
  set (rows := Economic.county_rows df) in *.
  enough (Haux : forall rest, (forall x, In x rest -> In x rows) ->
            flat_map (Economic.join_income (Economic.income_data rows))
              (omap (fun p =>
                       if is_nan (Economic.Source.Unemployment_rate (snd p) y)
                       then None
                       else Some (without_income (economic_row p y)))
                    rest)
            = omap (fun p =>
                      if is_nan (Economic.Source.Unemployment_rate (snd p) y)
                      then None else Some (economic_row p y))
                   rest)
    by (apply Haux; auto).
  induction rest as [|p rest IH]; intros Hsub; [reflexivity|].
  rewrite !omap_cons.
  destruct (is_nan (Economic.Source.Unemployment_rate (snd p) y)) eqn:Er.
  - apply IH. intros x Hx. apply Hsub. now right.
  - simpl. rewrite IH by (intros x Hx; apply Hsub; now right).
    unfold Economic.join_income. simpl.
    rewrite (income_of_code rows p Hnd (Hsub p (or_introl eq_refl))).
    destruct (is_nan (Economic.Source.Median_Household_Income_2022 (snd p))) eqn:Ei.
    + apply is_nan_true in Ei. unfold economic_row, Economic.with_income.
      simpl. now rewrite Ei.
    + reflexivity.
Qed.

Lemma income_on_every_year_witness :
  List.map Economic.Annual.median_household_income_2022
    (snd (Economic.clean_unemployment_data economic_sheet))
  = [68315; nan]%float.
Proof.
  rewrite (income_on_every_year economic_sheet).
  - vm_compute. reflexivity.
  - vm_compute. repeat constructor; simpl; intuition discriminate.
Defined.

End EconomicFacts.

(** ** Results on the population table and on cleaned names *)

Module PopulationFacts.
Import PyStr PyText Table Names Props Samples MoreProps MoreSamples.
Import PopulationSheet StrFacts NamesFacts.

#[local] Arguments String.append !s1 s2 : simpl nomatch.

(** *** Substrings *)

Lemma startswith_app (p b : string) : startswith (p ++ b) p = true.
Proof.
  induction p as [|c p IH]; simpl; [now destruct b|].
  now rewrite Ascii.eqb_refl, IH.
Qed.

Lemma startswith_inv (s p : string) :
  startswith s p = true -> exists b, s = p ++ b.
Proof.
  revert s. induction p as [|c p IH]; intros s H.
  - now exists s.
  - destruct s as [|a s]; simpl in H; [discriminate|].
    apply andb_prop in H as [Hc Hs]. apply Ascii.eqb_eq in Hc. subst a.
    destruct (IH s Hs) as [b ->]. now exists b.
Qed.

Lemma contains_prefix (s p : string) :
  startswith s p = true -> contains s p = true.
Proof. intros H. destruct s; cbn [contains]; now rewrite H. Qed.

Lemma contains_app (a p b : string) : contains (a ++ p ++ b) p = true.
Proof.
  induction a as [|c a IH]; simpl.
  - apply contains_prefix, startswith_app.
  - rewrite IH. apply orb_true_r.
Qed.

Lemma contains_inv (s p : string) :
  contains s p = true -> exists a b, s = a ++ p ++ b.
Proof.
  induction s as [|c s IH]; cbn [contains]; intros H.
  - rewrite orb_false_r in H. apply startswith_inv in H as [b E].
    now exists "", b.
  - apply orb_prop in H as [H|H].
    + apply startswith_inv in H as [b ->]. now exists "", b.
    + destruct (IH H) as (a & b & ->). now exists (String c a), b.
Qed.

Lemma remove_char_app (c : ascii) (s t : string) :
  remove_char c (s ++ t) = remove_char c s ++ remove_char c t.
Proof.
  induction s as [|a s IH]; simpl; [reflexivity|].
  destruct (Ascii.eqb a c); simpl; now rewrite IH.
Qed.

Lemma lower_app (s t : string) : lower (s ++ t) = lower s ++ lower t.
Proof. induction s as [|a s IH]; simpl; [reflexivity | now rewrite IH]. Qed.

(** Trimming in front keeps everything from the first visible character
    on. *)
Lemma lstrip_keeps (u v : string) (c : ascii) :
  is_space c = false ->
  exists w, lstrip (u ++ String c v) = w ++ String c v.
Proof.
  intros Hc. induction u as [|a u [w IH]]; simpl.
  - rewrite Hc. now exists "".
  - destruct (is_space a).
    + now exists w.
    + now exists (String a u).
Qed.

(** Trimming keeps a word without white space, wherever it stands. *)
Lemma strip_keeps (x y : string) (c : ascii) (p : string) :
  all_chars (fun a => negb (is_space a)) (String c p) = true ->
  exists x' y', strip (x ++ String c p ++ y) = x' ++ String c p ++ y'.
Proof.
  intros Hvis. unfold strip, rstrip.
  assert (Hc : is_space c = false).
  { simpl in Hvis. apply andb_prop in Hvis as [Hc _]. now apply negb_true_iff. }
  destruct (lstrip_keeps x (p ++ y) c Hc) as [w Hw].
  change (x ++ String c p ++ y) with (x ++ String c (p ++ y)).
  rewrite Hw.
  change (w ++ String c (p ++ y)) with (w ++ String c p ++ y).
  rewrite !rev_string_app.
  assert (Hrev : all_chars (fun a => negb (is_space a)) (rev_string (String c p)) = true)
    by now rewrite all_chars_rev.
  destruct (rev_string (String c p)) as [|d q] eqn:Eq.
  - apply (f_equal String.length) in Eq. simpl in Eq.
    rewrite string_app_length in Eq. simpl in Eq. lia.
  - assert (Hd : is_space d = false).
    { simpl in Hrev. apply andb_prop in Hrev as [Hd _]. now apply negb_true_iff. }
    rewrite append_assoc.
    change ((String d q) ++ rev_string w) with (String d (q ++ rev_string w)).
    destruct (lstrip_keeps (rev_string y) (q ++ rev_string w) d Hd) as [w' Hw'].
    rewrite Hw'.
    change (w' ++ String d (q ++ rev_string w)) with (w' ++ (String d q) ++ rev_string w).
    rewrite <- Eq, !rev_string_app, !rev_string_involutive.
    exists w, (rev_string w'). now rewrite append_assoc.
Qed.

(** A name with "County" in it is cleaned to a key with "county" in it. *)
Lemma county_in_key (s : string) :
  contains s "County" = true ->
  contains (strip (lower (remove_char "." s))) "county" = true
  /\ contains (strip (lower s)) "county" = true.
Proof.
  intros H. apply contains_inv in H as (a & b & ->). split.
  - rewrite !remove_char_app, !lower_app.
    destruct (strip_keeps (lower (remove_char "." a)) (lower (remove_char "." b))
                "c" "ounty" eq_refl) as (x' & y' & E).
    change (lower (remove_char "." "County")) with "county".
    rewrite E. apply contains_app.
  - rewrite !lower_app.
    destruct (strip_keeps (lower a) (lower b) "c" "ounty" eq_refl) as (x' & y' & E).
    change (lower "County") with "county".
    rewrite E. apply contains_app.
Qed.


(** *** The population table *)

Lemma in_combine_seq {A : Type} (l : list A) (start i : nat) (x : A) :
  In (i, x) (combine (seq start (length l)) l) ->
  (start <= i)%nat /\ nth_error l (i - start) = Some x.
Proof.
  revert start. induction l as [|y l IH]; intros start H; [contradiction|].
  simpl in H. destruct H as [E|H].
  - inversion E; subst. rewrite Nat.sub_diag. split; [lia | reflexivity].
  - apply IH in H as [Hle Hnth]. split; [lia|].
    replace (i - start)%nat with (S (i - S start)) by lia. exact Hnth.
Qed.

Lemma long_rows_inv years (src : list cell) (r : Long.row) :
  In r (long_rows years src) ->
  exists i label, In (i, label) years
    /\ notna (cell_at i src) = true
    /\ r = {| Long.county_name := area src;
              Long.year := int_of_digits label;
              Long.population := cell_at i src |}.
Proof.
  unfold long_rows. intros H.
  apply list_elem_of_In, list_elem_of_omap in H as ([i label] & Hil & E).
  simpl in E. destruct (notna (cell_at i src)) eqn:En; [|discriminate].
  exists i, label. repeat split; [now apply list_elem_of_In | exact En |].
  now inversion E.
Qed.

Lemma clean_population_data_inv (df : t) (out : list Long.row) :
  clean_population_data df = Some out ->
  out = flat_map (long_rows (year_columns df)) (county_df df).
Proof.
  unfold clean_population_data.
  destruct (columns df); [discriminate|].
  destruct (county_df df) as [|src rest]; [now intros [= <-]|].
  destruct (bool_decide _); [now intros [= <-] | discriminate].
Qed.

(** X7: every row of the population table comes from a sheet row whose
    first cell, as text, contains "County", carries that text as its name,
    the integer of an all-digit column label as its year and the cell of
    that column, which is not empty, as its population.  Areas not named
    "County" (parishes, boroughs, cities, states) give no row. *)
Theorem population_rows_from_county_rows (df : t) (out : list Long.row)
    (r : Long.row) :
  clean_population_data df = Some out -> In r out ->
  contains (Long.county_name r) "County" = true
  /\ notna (Long.population r) = true
  /\ exists src i label,
       In src (rows df)
       /\ Long.county_name r = area src
       /\ nth_error (labels df) i = Some label
       /\ isdigit label = true
       /\ Long.year r = int_of_digits label
       /\ Long.population r = cell_at i src.
Proof.
  intros Hout Hr. apply clean_population_data_inv in Hout. subst out.
  apply in_flat_map in Hr as (src & Hsrc & Hr).
  apply filter_In in Hsrc as [Hsrc Hcounty].
  apply long_rows_inv in Hr as (i & label & Hil & Hna & ->). simpl.
  unfold year_columns in Hil. apply filter_In in Hil as [Hil Hdigit].
  apply in_combine_seq in Hil as [_ Hnth]. rewrite Nat.sub_0_r in Hnth.
  repeat split; try assumption.
  exists src, i, label. repeat split; assumption.
Qed.

Lemma population_rows_from_county_rows_witness :
  clean_population_data population_sheet = Some [autauga_2020]
  /\ contains (Long.county_name autauga_2020) "County" = true.
Proof.
  assert (E : clean_population_data population_sheet = Some [autauga_2020])
    by (vm_compute; reflexivity).
  split; [exact E|].
  exact (proj1 (population_rows_from_county_rows population_sheet _ autauga_2020
                  E (or_introl eq_refl))).
Defined.

Lemma omap_length_le {A B : Type} (f : A -> option B) (l : list A) :
  (length (omap f l) <= length l)%nat.
Proof.
  induction l as [|x l IH]; [simpl; lia|].
  change (omap f (x :: l))
    with (match f x with Some y => y :: omap f l | None => omap f l end).
  destruct (f x); simpl; lia.
Qed.

Lemma omap_length_all {A B : Type} (f : A -> option B) (l : list A) :
  (forall x, In x l -> is_Some (f x)) -> length (omap f l) = length l.
Proof.
  induction l as [|x l IH]; intros H; [reflexivity|].
  change (omap f (x :: l))
    with (match f x with Some y => y :: omap f l | None => omap f l end).
  destruct (H x (or_introl eq_refl)) as [y ->]. simpl.
  f_equal. apply IH. intros z Hz. apply H. now right.
Qed.

(** X8: the population table has at most one row per county row and year
    column, and exactly that many when no year cell of a county row is
    empty. *)
Theorem population_rows_count (df : t) (out : list Long.row) :
  clean_population_data df = Some out ->
  (length out <= length (county_df df) * length (year_columns df))%nat
  /\ ((forall src il, In src (county_df df) -> In il (year_columns df) ->
                      notna (cell_at (fst il) src) = true) ->
      length out = (length (county_df df) * length (year_columns df))%nat).
Proof.
  intros Hout. apply clean_population_data_inv in Hout. subst out.
  generalize (year_columns df) as years. intros years.
  induction (county_df df) as [|src rest IH]; [simpl; split; [lia | reflexivity]|].
  destruct IH as [IHle IHeq]. simpl. rewrite length_app. split.
  - pose proof (omap_length_le
                  (fun il => if notna (cell_at (fst il) src)
                             then Some {| Long.county_name := area src;
                                          Long.year := int_of_digits (snd il);
                                          Long.population := cell_at (fst il) src |}
                             else None) years) as H.
    unfold long_rows at 1. lia.
  - intros Hall. rewrite IHeq by (intros s il Hs Hil; apply Hall; [now right | exact Hil]).
    unfold long_rows at 1. rewrite omap_length_all; [lia|].
    intros il Hil. rewrite (Hall src il (or_introl eq_refl) Hil). eauto.
Qed.

Lemma population_rows_count_witness :
  (length [autauga_2020]
   <= length (county_df population_sheet) * length (year_columns population_sheet))%nat.
Proof.
  apply (population_rows_count population_sheet [autauga_2020]).
  vm_compute. reflexivity.
Defined.

Lemma population_names_contain_county (df : t) (out : list Long.row)
    (r : Long.row) :
  clean_population_data df = Some out -> In r out ->
  contains (Long.county_name r) "County" = true.
Proof.
  intros Hout Hr. apply clean_population_data_inv in Hout. subst out.
  apply in_flat_map in Hr as (src & Hsrc & Hr).
  apply filter_In in Hsrc as [Hsrc Hcounty].
  now apply long_rows_inv in Hr as (i & label & Hil & Hna & ->).
Qed.

Lemma dict_get_In {K V : Type} `{EqDecision K} (k : K) (v : V)
    (d : list (K * V)) :
  dict_get k d = Some v -> In (k, v) d.
Proof.
  induction d as [|[k0 v0] d IH]; simpl; [discriminate|].
  destruct (decide (k = k0)) as [->|Hne].
  - intros [= ->]. now left.
  - intros H. right. now apply IH.
Qed.

(** X9: the name of every row of the population table is cleaned, on the
    population path of the name matching, to a key that contains "county";
    so whatever code such a row is given is the code of a mapping entry
    whose key contains "county". *)
Theorem population_keys_contain_county (df : t) (out : list Long.row)
    (r : Long.row) (mapping : fips_dict) (code : string) :
  clean_population_data df = Some out -> In r out ->
  exists k,
    clean_population_county_name (Some (Long.county_name r)) = Some k
    /\ contains k "county" = true
    /\ (dict_get (Some k) mapping = Some code -> In (Some k, code) mapping).
Proof.
  intros Hout Hr.
  pose proof (population_names_contain_county df out r Hout Hr) as Hc.
  exists (strip (lower (remove_char "." (Long.county_name r)))).
  split; [reflexivity|]. split.
  - exact (proj1 (county_in_key _ Hc)).
  - apply dict_get_In.
Qed.

Lemma population_keys_contain_county_witness :
  exists k,
    clean_population_county_name (Some (Long.county_name autauga_2020)) = Some k
    /\ contains k "county" = true.
Proof.
  destruct (population_keys_contain_county population_sheet [autauga_2020]
              autauga_2020 [] "01001") as (k & Hk & Hc & _).
  - vm_compute. reflexivity.
  - left. reflexivity.
  - exists k. split; assumption.
Defined.

End PopulationFacts.

(** ** Results on the name matching *)

Module MatchingFacts.
Import PyStr PyText Table Names Props Samples MoreProps MoreSamples StrFacts
  NamesFacts.

#[local] Arguments String.append !s1 s2 : simpl nomatch.

(** *** Cleaned names *)

Lemma remove_char_fixed (s : string) :
  period_free s = true -> remove_char "." s = s.
Proof.
  unfold period_free. induction s as [|c s IH]; simpl; [reflexivity|].
  intros H. apply andb_prop in H as [Hc Hs].
  apply negb_true_iff in Hc. rewrite Hc. now rewrite IH.
Qed.

Lemma lower_fixed (s : string) : is_lowercase s = true -> lower s = s.
Proof.
  unfold is_lowercase. induction s as [|c s IH]; simpl; [reflexivity|].
  intros H. apply andb_prop in H as [Hc Hs].
  apply negb_true_iff in Hc. unfold lower_char. rewrite Hc. now rewrite IH.
Qed.

Lemma lstrip_fixed (s : string) : starts_with_space s = false -> lstrip s = s.
Proof. destruct s as [|c s]; simpl; [reflexivity | now intros ->]. Qed.

Lemma strip_fixed (s : string) : whitespace_stripped s = true -> strip s = s.
Proof.
  unfold whitespace_stripped. intros H. apply andb_prop in H as [Hl Hr].
  apply negb_true_iff in Hl, Hr.
  unfold strip, rstrip. rewrite (lstrip_fixed s Hl), (lstrip_fixed _ Hr).
  apply rev_string_involutive.
Qed.

Section KeepsSpaces.
Variable p : ascii -> bool.
Hypothesis p_space : forall c, is_space c = true -> p c = true.

Lemma all_chars_lstrip_eq (s : string) :
  all_chars p (lstrip s) = all_chars p s.
Proof.
  induction s as [|c s IH]; simpl; [reflexivity|].
  destruct (is_space c) eqn:E; [|reflexivity].
  now rewrite IH, (p_space c E).
Qed.

Lemma all_chars_strip_eq (s : string) :
  all_chars p (strip s) = all_chars p s.
Proof.
  unfold strip, rstrip.
  now rewrite all_chars_rev, all_chars_lstrip_eq, all_chars_rev,
    all_chars_lstrip_eq.
Qed.
End KeepsSpaces.

Lemma period_not_space (c : ascii) :
  is_space c = true -> negb (Ascii.eqb c ".") = true.
Proof.
  destruct c as [[] [] [] [] [] [] [] []]; vm_compute; intros H;
    solve [reflexivity | discriminate].
Qed.

(** X10: the population path and the county / housing path clean a name to
    the same key exactly when the name has no period; a name with a period
    gets two different keys. *)
Theorem cleanings_agree_iff_period_free (s : string) :
  clean_population_county_name (Some s) = clean_county_name (Some s)
  <-> period_free s = true.
Proof.
  unfold clean_population_county_name, clean_county_name.
  cbn [fmap option_fmap option_map]. split.
  - intros E. injection E as E.
    assert (H : period_free (strip (lower s)) = true).
    { rewrite <- E. apply all_chars_strip.
      fold (period_free (lower (remove_char "." s))).
      rewrite lower_period_free. apply remove_char_period_free. }
    unfold period_free in H.
    rewrite (all_chars_strip_eq _ period_not_space) in H.
    fold (period_free (lower s)) in H. now rewrite lower_period_free in H.
  - intros H. now rewrite (remove_char_fixed s H).
Qed.

(** X11: cleaning is idempotent on both paths, and a key of the population
    path is left as it is by the county / housing path. *)
Theorem cleaning_idempotent (name : option string) :
  clean_county_name (clean_county_name name) = clean_county_name name
  /\ clean_population_county_name (clean_population_county_name name)
     = clean_population_county_name name
  /\ clean_county_name (clean_population_county_name name)
     = clean_population_county_name name.
Proof.
  destruct name as [s|]; [|repeat split; reflexivity].
  unfold clean_population_county_name, clean_county_name.
  cbn [fmap option_fmap option_map].
  assert (Hshape : forall x, lower (strip (lower x)) = strip (lower x)).
  { intros x. apply lower_fixed, all_chars_strip, lower_is_lowercase. }
  assert (Hstrip : forall x, strip (strip x) = strip x).
  { intros x. apply strip_fixed, strip_stripped. }
  repeat split.
  - now rewrite Hshape, Hstrip.
  - rewrite remove_char_fixed.
    + now rewrite Hshape, Hstrip.
    + apply all_chars_strip.
      fold (period_free (lower (remove_char "." s))).
      rewrite lower_period_free. apply remove_char_period_free.
  - now rewrite Hshape, Hstrip.
Qed.

(** *** The mapping and the report *)

Lemma NoDup_fst_functional {K V : Type} (l : list (K * V)) (k : K) (v v' : V) :
  List.NoDup (List.map fst l) -> In (k, v) l -> In (k, v') l -> v = v'.
Proof.
  induction l as [|[k0 v0] l IH]; simpl; intros Hnd H H'; [contradiction|].
  inversion Hnd as [|? ? Hnotin Hnd']; subst.
  destruct H as [E|H], H' as [E'|H'].
  - congruence.
  - inversion E; subst. exfalso. apply Hnotin.
    apply in_map_iff. now exists (k, v').
  - inversion E'; subst. exfalso. apply Hnotin.
    apply in_map_iff. now exists (k, v).
  - now apply IH.
Qed.

Definition county_pair (c : Fips.county) : name_key * string :=
  (cleaned_key c, Fips.fips_code c).

Lemma mapping_unfold (counties_df : list Fips.county) :
  fips_mapping (create_county_name_to_fips_mapping counties_df)
  = fold_left dict_step (List.map county_pair counties_df) [].
Proof.
  simpl. unfold dict_of_pairs.
  now rewrite (combine_map cleaned_key Fips.fips_code).
Qed.

(** X12: when no two county records share a cleaned name, every county is
    found under its own name with its own code; and, whatever the records, a
    key is not in the mapping exactly when no county has it as its cleaned
    name. *)
Theorem mapping_finds_every_county (counties_df : list Fips.county) :
  let mapping := fips_mapping (create_county_name_to_fips_mapping counties_df) in
  (List.NoDup (List.map cleaned_key counties_df) ->
   forall c, In c counties_df ->
     dict_get (cleaned_key c) mapping = Some (Fips.fips_code c))
  /\ (forall k, dict_get k mapping = None
                <-> forall c, In c counties_df -> cleaned_key c <> k).
Proof.
  intros mapping. unfold mapping. rewrite mapping_unfold. split.
  - intros Hnd c Hc. rewrite fold_set_get. simpl.
    assert (Hpairs : List.NoDup (List.map fst (List.map county_pair counties_df)))
      by (rewrite List.map_map; exact Hnd).
    destruct (List.find _ (rev (List.map county_pair counties_df)))
      as [[k v]|] eqn:Ef.
    + apply find_some in Ef as [Hin Hk]. apply bool_decide_eq_true in Hk.
      simpl in Hk. subst k. apply in_rev in Hin. simpl. f_equal.
      apply (NoDup_fst_functional _ (cleaned_key c) _ _ Hpairs Hin).
      apply in_map_iff. now exists c.
    + assert (H : bool_decide ((county_pair c).1 = cleaned_key c) = false).
      { apply (find_none _ _ Ef (county_pair c)).
        apply in_rev. rewrite rev_involutive. apply in_map_iff. now exists c. }
      apply bool_decide_eq_false in H. now contradiction H.
  - intros k. rewrite fold_set_get. simpl. split.
    + destruct (List.find _ (rev (List.map county_pair counties_df))) eqn:Ef;
        [discriminate|].
      intros _ c Hc E.
      assert (H : bool_decide ((county_pair c).1 = k) = false).
      { apply (find_none _ _ Ef (county_pair c)).
        apply in_rev. rewrite rev_involutive. apply in_map_iff. now exists c. }
      apply bool_decide_eq_false in H. now contradiction H.
    + intros Hno.
      destruct (List.find _ (rev (List.map county_pair counties_df)))
        as [[k' v]|] eqn:Ef; [|reflexivity].
      apply find_some in Ef as [Hin Hk]. apply bool_decide_eq_true in Hk.
      simpl in Hk. subst k'. apply in_rev in Hin.
      apply in_map_iff in Hin as (c & E & Hc).
      inversion E. exfalso. now apply (Hno c Hc).
Qed.

Lemma mapping_finds_every_county_witness :
  dict_get (cleaned_key autauga)
    (fips_mapping (create_county_name_to_fips_mapping [autauga; washington_al]))
  = Some "01001".
Proof.
  apply (proj1 (mapping_finds_every_county [autauga; washington_al])).
  - vm_compute. repeat constructor; simpl; intuition discriminate.
  - left. reflexivity.
Defined.

Lemma filter_length_eq_iff {A : Type} (f : A -> bool) (l : list A) :
  length (List.filter f l) = length l <-> forall x, In x l -> f x = true.
Proof.
  induction l as [|x l IH]; simpl; [intuition|].
  pose proof (filter_length_le f l) as Hle.
  destruct (f x) eqn:E; simpl; split.
  - intros H y [<-|Hy]; [exact E|]. apply IH; [lia | exact Hy].
  - intros H. f_equal. apply IH. intros y Hy. apply H. now right.
  - intros H. lia.
  - intros H. specialize (H x (or_introl eq_refl)). congruence.
Qed.

(** X13: the number of rows reported as mapped never exceeds the number of
    rows; the two are equal exactly when the cleaned name of every row is a
    key of the mapping; and for an empty table the percentage is missing (0
    divided by 0), no error is raised. *)
Theorem report_counts (mapping : fips_dict) (population : list Population.row) :
  let report := population_report (add_fips_to_population_data mapping population) in
  (mapped_count report <= total_count report)%nat
  /\ (mapped_count report = total_count report
      <-> forall r, In r population ->
            is_Some (dict_get (clean_population_county_name
                                 (Population.county_name r)) mapping))
  /\ (population = [] -> success_percent report = nan).
Proof.
  simpl. unfold map_fips. split; [apply filter_length_le|]. split.
  - rewrite filter_length_eq_iff. split.
    + intros H r Hr.
      specialize (H (r, dict_get (clean_population_county_name
                                    (Population.county_name r)) mapping)).
      simpl in H. eapply bool_decide_eq_true_1, H.
      apply in_map_iff. now exists r.
    + intros H [r code] Hp. apply in_map_iff in Hp as (r' & E & Hr').
      inversion E; subst. simpl. apply bool_decide_eq_true_2. now apply H.
  - intros ->. reflexivity.
Qed.

End MatchingFacts.
(** ** Results on the annual tables *)

Module AnnualFacts.
Import Table Housing Props Samples MoreProps MoreSamples FloatFacts TableFacts
  GrowthFacts OrderFacts.

Lemma annual_keys (housing_df : list Monthly.row) :
  List.map annual_key (annual_means housing_df) = group_keys housing_df.
Proof.
  unfold annual_means. rewrite List.map_map.
  rewrite <- (List.map_id (group_keys housing_df)) at 2.
  apply List.map_ext. intros [r [n y]]. reflexivity.
Qed.

(** X14: the annual table of [groupby(['RegionID', 'county_name', 'year'])]
    has exactly one row per key: no two rows share region, county name and
    year, the rows come in the order of the keys, and a key has a row
    exactly when a monthly row with a county name carries it. *)
Theorem annual_rows_one_per_key (housing_df : list Monthly.row) :
  let keys := List.map annual_key (annual_means housing_df) in
  List.NoDup keys
  /\ StronglySorted (fun a b => key_leb a b = true) keys
  /\ forall k, In k keys
               <-> exists m, In m housing_df /\ key_of m = Some k.
Proof.
  simpl. rewrite annual_keys. unfold group_keys.
  pose proof (sort_sorted key_leb key_leb_total key_leb_trans
                (omap key_of housing_df)) as Hs.
  split; [|split].
  - now apply (uniq_NoDup key_leb key_eqb key_eqb_eq key_leb_antisym).
  - now apply uniq_sorted.
  - intros k. rewrite (uniq_In_iff key_eqb key_eqb_eq), sort_In.
    rewrite <- list_elem_of_In, list_elem_of_omap.
    split; intros (m & Hm & Hk); exists m; split; try exact Hk;
      now apply list_elem_of_In.
Qed.

Lemma named_key (m : Monthly.row) :
  named m = match key_of m with Some _ => true | None => false end.
Proof. unfold named, key_of. now destruct (Monthly.county_name m). Qed.

Lemma omap_filter_defined {A B : Type} (f : A -> option B) (p : A -> bool)
    (l : list A) :
  (forall x, p x = false -> f x = None) ->
  omap f (List.filter p l) = omap f l.
Proof.
  intros H. unfold omap. induction l as [|x l IH]; [reflexivity|].
  simpl. destruct (p x) eqn:E; simpl.
  - now rewrite IH.
  - now rewrite (H x E).
Qed.

Lemma omap_key_named (housing_df : list Monthly.row) :
  omap key_of (List.filter named housing_df) = omap key_of housing_df.
Proof.
  apply omap_filter_defined. intros m. rewrite named_key.
  now destruct (key_of m).
Qed.

Lemma members_named (housing_df : list Monthly.row) (k : group_key) :
  List.filter (in_group k) (List.filter named housing_df)
  = List.filter (in_group k) housing_df.
Proof.
  induction housing_df as [|m l IH]; [reflexivity|].
  simpl. rewrite named_key. unfold in_group at 2.
  destruct (key_of m) eqn:Ek; simpl; [|exact IH].
  unfold in_group at 1. rewrite Ek. now rewrite IH.
Qed.

(** X15: monthly rows without county name are in no group: the annual
    means, and with them the affordability table and the trend table, are
    those of the rows that carry a name. *)
Theorem nameless_rows_ignored (housing_df : list Monthly.row) :
  annual_means housing_df = annual_means (List.filter named housing_df)
  /\ calculate_affordability_metrics housing_df
     = calculate_affordability_metrics (List.filter named housing_df)
  /\ forall fm, create_annual_price_trends fm housing_df
                = create_annual_price_trends fm (List.filter named housing_df).
Proof.
  assert (H : annual_means housing_df
              = annual_means (List.filter named housing_df)).
  { unfold annual_means, group_keys. rewrite omap_key_named.
    apply List.map_ext. intros k. unfold aggregate.
    now rewrite members_named. }
  split; [exact H|]. split.
  - unfold calculate_affordability_metrics. now rewrite H.
  - intros fm. unfold create_annual_price_trends. now rewrite H.
Qed.

Lemma zip_trend_annual (rows : list Annual.row) (gb gt : list float) :
  length gb = length rows -> length gt = length rows ->
  List.map trend_annual (zip_with trend_of rows (combine gb gt)) = rows.
Proof.
  revert gb gt. induction rows as [|a rows IH]; intros gb gt Hb Ht.
  - reflexivity.
  - destruct gb as [|b gb], gt as [|g gt]; simpl in Hb, Ht; try lia.
    simpl. f_equal; [destruct a; reflexivity|].
    apply IH; lia.
Qed.

Lemma zip_trend_growth (t : tier) (rows : list Annual.row) (gb gt : list float) :
  length gb = length rows -> length gt = length rows ->
  List.map (growth_of t) (zip_with trend_of rows (combine gb gt))
  = match t with Bottom => gb | Top => gt end.
Proof.
  revert gb gt. induction rows as [|a rows IH]; intros gb gt Hb Ht.
  - destruct gb, gt, t; simpl in *; try lia; reflexivity.
  - destruct gb as [|b gb], gt as [|g gt]; simpl in Hb, Ht; try lia.
    specialize (IH gb gt ltac:(lia) ltac:(lia)).
    destruct t; simpl in *; now rewrite IH.
Qed.

(** X16: the trend table is the annual table put in the order of region and
    year: its key and price columns are those of the sorted annual means
    whatever the fill default, it has as many rows as the affordability
    table, and every annual row is the key and price part of a trend row
    and conversely. *)
Theorem trend_rows_are_annual_rows (fm : fill_method)
    (housing_df : list Monthly.row) :
  let trends := create_annual_price_trends fm housing_df in
  List.map trend_annual trends = sort annual_leb (annual_means housing_df)
  /\ length trends = length (calculate_affordability_metrics housing_df)
  /\ forall a, In a (annual_means housing_df)
               <-> exists t, In t trends /\ trend_annual t = a.
Proof.
  simpl.
  assert (H : List.map trend_annual (create_annual_price_trends fm housing_df)
              = sort annual_leb (annual_means housing_df)).
  { unfold create_annual_price_trends.
    apply zip_trend_annual; apply growth_column_length. }
  split; [exact H|]. split.
  - rewrite <- (length_map trend_annual), H, sort_length.
    unfold calculate_affordability_metrics. now rewrite length_map.
  - intros a. rewrite <- (sort_In annual_leb), <- H, in_map_iff.
    split; intros (t & Ht1 & Ht2); exists t; auto.
Qed.

Lemma ffill_from_observed (xs : list float) (last : float) :
  Forall (fun x => is_nan x = false) xs -> ffill_from last xs = xs.
Proof.
  intros H. revert last.
  induction H as [|x xs Hx _ IH]; intros last; simpl; [reflexivity|].
  now rewrite Hx, IH.
Qed.

Lemma pct_change_observed (fm fm' : fill_method) (xs : list float) :
  Forall (fun x => is_nan x = false) xs -> pct_change fm xs = pct_change fm' xs.
Proof.
  intros H. unfold pct_change.
  assert (E : forall m, fill m xs = xs).
  { intros [|]; simpl; [now apply ffill_from_observed | reflexivity]. }
  now rewrite !E.
Qed.

Lemma transform_from_ext (f g : list float -> list float)
    (all : list (Z * float)) (seen : list Z) (rest : list (Z * float)) :
  (forall k, f (List.map snd (List.filter (fun p => (fst p =? k)%Z) all))
             = g (List.map snd (List.filter (fun p => (fst p =? k)%Z) all))) ->
  transform_from f all seen rest = transform_from g all seen rest.
Proof.
  intros H. revert seen.
  induction rest as [|[k x] rest IH]; intros seen; simpl; [reflexivity|].
  now rewrite H, IH.
Qed.

Lemma growth_column_observed (fm fm' : fill_method) (price : Annual.row -> float)
    (rows : list Annual.row) :
  (forall a, In a rows -> is_nan (price a) = false) ->
  growth_column fm price rows = growth_column fm' price rows.
Proof.
  intros H. unfold growth_column, groupby_transform. f_equal.
  apply transform_from_ext. intros k.
  apply pct_change_observed, List.Forall_forall. intros x Hx.
  apply in_map_iff in Hx as ([k' y] & <- & Hy).
  apply filter_In in Hy as [Hy _].
  apply in_map_iff in Hy as (a & E & Ha).
  inversion E; subst. now apply H.
Qed.

(** X17: when no annual mean of a tier is missing, the growth column of
    that tier does not depend on the fill default of [pct_change]: the
    pandas releases that fill forward and those that do not give the same
    column. *)
Theorem growth_without_gaps_is_release_independent
    (housing_df : list Monthly.row) (t : tier) (fm fm' : fill_method) :
  (forall a, In a (annual_means housing_df) -> is_nan (annual_price t a) = false) ->
  List.map (growth_of t) (create_annual_price_trends fm housing_df)
  = List.map (growth_of t) (create_annual_price_trends fm' housing_df).
Proof.
  intros H. unfold create_annual_price_trends.
  rewrite !zip_trend_growth by apply growth_column_length.
  assert (Hs : forall a, In a (sort annual_leb (annual_means housing_df)) ->
                         is_nan (annual_price t a) = false).
  { intros a Ha. apply H. now apply sort_In in Ha. }
  destruct t; now apply growth_column_observed.
Qed.

Lemma growth_without_gaps_is_release_independent_witness :
  List.map (growth_of Bottom) (create_annual_price_trends Ffill three_years)
  = List.map (growth_of Bottom) (create_annual_price_trends NoFill three_years).
Proof.
  apply (growth_without_gaps_is_release_independent three_years Bottom
           Ffill NoFill).
  intros a Ha. vm_compute in Ha.
  destruct Ha as [<-|[<-|[<-|[]]]]; reflexivity.
Defined.

End AnnualFacts.

(** ** Results on the melted and joined tables *)

Module MergeFacts.
Import PyStr Table Housing Props Samples MoreProps MoreSamples FloatFacts
  TableFacts ReshapeFacts.

Lemma combine_seq_In {A : Type} (l : list A) (start i : nat) (x : A) :
  In (i, x) (combine (seq start (length l)) l)
  <-> (start <= i)%nat /\ nth_error l (i - start) = Some x.
Proof.
  revert start. induction l as [|y l IH]; intros start; simpl.
  - split; [contradiction|]. intros [_ H]. now destruct (i - start)%nat.
  - rewrite IH. split.
    + intros [E|[Hle Hnth]].
      * inversion E; subst. rewrite Nat.sub_diag. split; [lia | reflexivity].
      * split; [lia|].
        replace (i - start)%nat with (S (i - S start)) by lia. exact Hnth.
    + intros [Hle Hnth].
      destruct (Nat.eq_dec i start) as [->|Hne].
      * rewrite Nat.sub_diag in Hnth. simpl in Hnth. left. congruence.
      * right. split; [lia|].
        replace (i - start)%nat with (S (i - S start)) in Hnth by lia.
        exact Hnth.
Qed.

Lemma combine_seq_snd {A : Type} (l : list A) (start : nat) :
  List.map snd (combine (seq start (length l)) l) = l.
Proof.
  revert start. induction l as [|y l IH]; intros start; simpl;
    [reflexivity | now rewrite IH].
Qed.

Lemma melt_blocks_length (rows : list Wide.row) (ics : list (nat * string)) :
  length
    (flat_map
       (fun ic : nat * string =>
          if is_date_col (snd ic)
          then List.map (melt_cell (fst ic) (snd ic)) rows
          else [])
       ics)
  = (length (List.filter is_date_col (List.map snd ics)) * length rows)%nat.
Proof.
  induction ics as [|[i c] ics IH]; simpl; [reflexivity|].
  rewrite length_app, IH.
  destruct (is_date_col c); simpl; [now rewrite length_map | reflexivity].
Qed.

(** X18: the melted table has one row for every date column and every row
    of the wide table, missing prices included: its length is the product
    of the two counts, and its rows are exactly the cells [melt_cell] makes
    from a date header, its position among the columns and a row. *)
Theorem melt_cells (df : Wide.t) :
  length (melt df) = (length (date_cols df) * length (Wide.rows df))%nat
  /\ forall l, In l (melt df)
               <-> exists i col r,
                     nth_error (Wide.columns df) i = Some col
                     /\ is_date_col col = true
                     /\ In r (Wide.rows df)
                     /\ l = melt_cell i col r.
Proof.
  split.
  - unfold melt, date_cols. now rewrite melt_blocks_length, combine_seq_snd.
  - intros l. unfold melt. rewrite in_flat_map. split.
    + intros ([i c] & Hic & Hl). simpl in Hl.
      destruct (is_date_col c) eqn:Hc; [|contradiction].
      apply in_map_iff in Hl as (r & <- & Hr).
      apply combine_seq_In in Hic as [_ Hnth]. rewrite Nat.sub_0_r in Hnth.
      now exists i, c, r.
    + intros (i & c & r & Hnth & Hc & Hr & ->).
      exists (i, c). split.
      * apply combine_seq_In. rewrite Nat.sub_0_r. split; [lia | exact Hnth].
      * simpl. rewrite Hc. now apply in_map.
Qed.

Lemma join_left_In (right : list Melted.row) (l : Melted.row) (j : Joined.row) :
  In j (join_left right l)
  <-> (exists r, In r right /\ joined_with l r j)
      \/ (existsb (same_key l) right = false /\ j = join_pair l nan).
Proof.
  unfold join_left, joined_with.
  destruct (List.filter (same_key l) right) as [|m ms] eqn:Ef.
  - assert (Hnone : existsb (same_key l) right = false).
    { destruct (existsb (same_key l) right) eqn:Ee; [|reflexivity].
      apply existsb_exists in Ee as (r & Hr & Hk).
      assert (Hin : In r (List.filter (same_key l) right))
        by (apply filter_In; now split).
      rewrite Ef in Hin. contradiction. }
    split.
    + intros [<-|[]]. right. now split.
    + intros [(r & Hr & Hk & _)|[_ ->]]; [|now left].
      assert (Hin : In r (List.filter (same_key l) right))
        by (apply filter_In; now split).
      rewrite Ef in Hin. contradiction.
  - rewrite <- Ef. rewrite in_map_iff. split.
    + intros (r & <- & Hr). apply filter_In in Hr as [Hr Hk].
      left. now exists r.
    + intros [(r & Hr & Hk & ->)|[Hnone _]].
      * exists r. split; [reflexivity|]. apply filter_In. now split.
      * assert (Hm : In m (List.filter (same_key l) right))
          by (rewrite Ef; now left).
        apply filter_In in Hm as [Hm Hk].
        assert (Hsome : existsb (same_key l) right = true)
          by (apply existsb_exists; now exists m).
        congruence.
Qed.

Lemma join_left_nonempty (right : list Melted.row) (l : Melted.row) :
  (1 <= length (join_left right l))%nat.
Proof.
  unfold join_left.
  destruct (List.filter (same_key l) right); simpl; lia.
Qed.

Lemma flat_map_length_ge {A B : Type} (f : A -> list B) (l : list A) :
  (forall x, (1 <= length (f x))%nat) -> (length l <= length (flat_map f l))%nat.
Proof.
  intros H. induction l as [|x l IH]; simpl; [lia|].
  rewrite length_app. specialize (H x). lia.
Qed.

(** X19: the outer join of the two melted tables is complete and sound.  A
    row of it is either a bottom-tier row paired with a top-tier row of the
    same region and date, or a bottom-tier row without such a partner, with
    a missing top price, or a top-tier row whose key no bottom-tier row
    has, with its own price and every bottom-tier column missing, the name
    of the region included; every such row is in the join; and the join
    has at least as many rows as the bottom-tier table. *)
Theorem merge_outer_rows (left right : list Melted.row) :
  (forall j, In j (merge_outer left right)
             <-> (exists l, In l left
                    /\ ((exists r, In r right /\ joined_with l r j)
                        \/ (existsb (same_key l) right = false
                            /\ j = join_pair l nan)))
                 \/ (exists r, In r right
                       /\ existsb (fun l => same_key l r) left = false
                       /\ j = join_right_only r))
  /\ (length left <= length (merge_outer left right))%nat.
Proof.
  split.
  - intros j. unfold merge_outer.
    rewrite sort_In, in_app_iff, in_flat_map, in_map_iff. split.
    + intros [(l & Hl & Hj)|(r & <- & Hr)].
      * left. exists l. split; [exact Hl|]. now apply join_left_In.
      * right. apply filter_In in Hr as [Hr Hk].
        apply negb_true_iff in Hk. now exists r.
    + intros [(l & Hl & Hj)|(r & Hr & Hk & ->)].
      * left. exists l. split; [exact Hl|]. now apply join_left_In.
      * right. exists r. split; [reflexivity|].
        apply filter_In. split; [exact Hr|]. now apply negb_true_iff.
  - unfold merge_outer. rewrite sort_length, length_app.
    pose proof (flat_map_length_ge (join_left right) left
                  (join_left_nonempty right)).
    lia.
Qed.

(** *** The monthly table *)

Lemma iso_reader_keeps_length : keeps_length Reshape.iso_reader.
Proof.
  intros col dates H. unfold Reshape.iso_reader in H.
  apply length_mapM in H. congruence.
Qed.

Lemma with_date_with_day (j : Joined.row) :
  with_date j = Reshape.with_day j <$> to_datetime (Joined.date j).
Proof.
  unfold with_date.
  now destruct (to_datetime (Joined.date j)) as [[[y m] d]|].
Qed.

Lemma mapM_with_date (joined : list Joined.row) :
  mapM with_date joined
  = zip_with Reshape.with_day joined
      <$> Reshape.iso_reader (List.map Joined.date joined).
Proof.
  unfold Reshape.iso_reader.
  induction joined as [|j joined IH]; [reflexivity|].
  cbn [mapM List.map]. rewrite with_date_with_day, IH.
  destruct (to_datetime (Joined.date j)) as [ymd|]; [|reflexivity].
  now destruct (mapM to_datetime (List.map Joined.date joined)).
Qed.

(** With the reader of [Housing.to_datetime] the function is the one of
    [Housing]. *)
Lemma reshape_iso (bottom_df top_df : Wide.t) :
  Reshape.reshape_housing_data Reshape.iso_reader bottom_df top_df
  = Housing.reshape_housing_data bottom_df top_df.
Proof.
  unfold Reshape.reshape_housing_data, Housing.reshape_housing_data.
  destruct (date_cols bottom_df); [reflexivity|].
  rewrite mapM_with_date.
  now destruct (Reshape.iso_reader _).
Qed.

Lemma has_price_with_day (j : Joined.row) (ymd : Z * Z * Z) :
  has_price (Reshape.with_day j ymd) = joined_has_price j.
Proof. reflexivity. Qed.

Lemma built_from_with_day (j : Joined.row) (ymd : Z * Z * Z) :
  built_from j (Reshape.with_day j ymd).
Proof.
  destruct ymd as [[y m] d]. unfold built_from. simpl. repeat split.
Qed.

Lemma zip_with_day (joined : list Joined.row) (dates : list (Z * Z * Z)) :
  length dates = length joined ->
  Forall2 built_from (List.filter joined_has_price joined)
    (List.filter has_price (zip_with Reshape.with_day joined dates)).
Proof.
  revert dates. induction joined as [|j joined IH]; intros dates Hlen.
  - destruct dates; constructor.
  - destruct dates as [|ymd dates]; [discriminate|].
    cbn [zip_with List.filter]. rewrite has_price_with_day.
    destruct (joined_has_price j).
    + constructor; [apply built_from_with_day|].
      apply IH. simpl in Hlen. lia.
    + apply IH. simpl in Hlen. lia.
Qed.

Lemma zip_with_day_In (joined : list Joined.row) (dates : list (Z * Z * Z))
    (r : Monthly.row) :
  In r (zip_with Reshape.with_day joined dates) ->
  exists j ymd, In j joined /\ r = Reshape.with_day j ymd.
Proof.
  revert dates. induction joined as [|j joined IH]; intros dates H.
  - destruct dates; contradiction.
  - destruct dates as [|ymd dates]; [contradiction|].
    destruct H as [<-|H].
    + exists j, ymd. split; [now left | reflexivity].
    + destruct (IH dates H) as (j' & ymd' & Hj & E).
      exists j', ymd'. split; [now right | exact E].
Qed.

Lemma top_only_joined (left right : list Melted.row) (j : Joined.row) :
  In j (merge_outer left right) ->
  existsb (key_of_joined j) left = false ->
  Joined.RegionName j = None /\ is_nan (Joined.bottom_tier_price j) = true.
Proof.
  unfold merge_outer. intros Hj Hnone.
  apply sort_In, in_app_or in Hj as [Hj|Hj].
  - exfalso. apply in_flat_map in Hj as (l & Hl & Hjl).
    assert (Hkey : key_of_joined j l = true).
    { unfold key_of_joined.
      apply join_left_In in Hjl as [(r0 & _ & _ & ->)|[_ ->]]; simpl;
        now rewrite Z.eqb_refl, String.eqb_refl. }
    assert (Hsome : existsb (key_of_joined j) left = true)
      by (apply existsb_exists; now exists l).
    congruence.
  - apply in_map_iff in Hj as (r0 & <- & _). now split.
Qed.

(** X20: however [pd.to_datetime] reads the date column (the reader is a
    parameter; it returns one date per row), the monthly table
    [reshape_housing_data] returns is, row by row and in the order of the
    join, the joined table without the rows that have no price in any
    tier: a row keeps the region, the names, the state and the two prices
    of its joined row, its county name is the region name, and its year and
    month are those of its date.  A row of a region and date that no
    bottom-tier cell has (a month of the top-tier table only) has no county
    name and no bottom price. *)
Theorem reshape_rows_invariant
    (to_datetime : list string -> option (list (Z * Z * Z)))
    (bottom_df top_df : Wide.t) (housing_prices : list Monthly.row) :
  keeps_length to_datetime ->
  Reshape.reshape_housing_data to_datetime bottom_df top_df
  = Some housing_prices ->
  let joined := merge_outer (melt bottom_df) (melt top_df) in
  Forall2 built_from (List.filter joined_has_price joined) housing_prices
  /\ (forall r, In r housing_prices ->
        has_price r = true
        /\ Monthly.county_name r = Monthly.RegionName r
        /\ Monthly.year r = fst (fst (Monthly.date r))
        /\ Monthly.month r = snd (fst (Monthly.date r)))
  /\ (forall j r, In j joined -> built_from j r ->
        existsb (key_of_joined j) (melt bottom_df) = false ->
        Monthly.county_name r = None
        /\ is_nan (Monthly.bottom_tier_price r) = true).
Proof.
  intros Hreader Hout joined. unfold Reshape.reshape_housing_data in Hout.
  destruct (date_cols bottom_df) as [|c cs]; [discriminate|].
  fold joined in Hout.
  destruct (to_datetime (List.map Joined.date joined)) as [dates|] eqn:Ed;
    [|discriminate].
  inversion Hout; subst housing_prices. clear Hout.
  apply Hreader in Ed. rewrite length_map in Ed.
  split; [now apply zip_with_day|]. split.
  - intros r Hr. apply filter_In in Hr as [Hr Hprice].
    apply zip_with_day_In in Hr as (j & ymd & _ & ->).
    repeat split. exact Hprice.
  - intros j r Hj (_ & _ & _ & _ & Hbottom & _ & Hname & _) Hnone.
    destruct (top_only_joined _ _ j Hj Hnone) as [Hn Hb].
    rewrite Hname, Hbottom. now split.
Qed.

Lemma reshape_rows_invariant_witness :
  exists housing_prices,
    Reshape.reshape_housing_data Reshape.iso_reader bottom_sample top_sample
    = Some housing_prices
    /\ In january_2000 housing_prices
    /\ has_price january_2000 = true.
Proof.
  destruct (Reshape.reshape_housing_data Reshape.iso_reader bottom_sample
              top_sample) as [hp|] eqn:E;
    [|vm_compute in E; discriminate].
  assert (Hin : In january_2000 hp).
  { pose proof E as E'. vm_compute in E'. inversion E'. left. reflexivity. }
  exists hp. split; [reflexivity|]. split; [exact Hin|].
  destruct (reshape_rows_invariant Reshape.iso_reader bottom_sample
              top_sample hp iso_reader_keeps_length E) as (_ & Hrows & _).
  exact (proj1 (Hrows january_2000 Hin)).
Defined.

End MergeFacts.
